(** * The Reddit client's table model (ci/redditclient)

    A shallow embedding of [RedditModel] (redditmodel.cpp) and of the part of
    [RedditWrapper] (redditwrapper.cpp) it calls, with the Qt classes they
    use reduced to what the two files observe of them:

    - JSON values ([QJsonValue], [QJsonObject], [QJsonDocument]) with Qt's
      lenient accessors ([toObject] of a non-object is the empty object,
      [toString] of a non-string is the empty string, [value] of a missing
      key is [Undefined]);
    - [Q_ASSERT] as in a build where assertions are compiled in (no
      [QT_NO_DEBUG]): a false condition aborts the program;
    - signals as a log of emissions, each with the records an observer
      connected to the signal can read while it is delivered (slots run
      synchronously, on the one event-loop thread);
    - the event loop as a [step] function over the events the model reacts
      to.

    [int] values are kept as [Z] and the size of a list is its length: no
    list is taken to hold more records than an [int] counts. A [QString] is
    a [string]; the null and the empty [QString] are not told apart. The
    [parent] index that [rowCount] and [columnCount] ignore is left out. *)

From Stdlib Require Import ZArith Floats.SpecFloat.
From stdpp Require Import gmap strings list.

Local Open Scope Z_scope.

(** ** Qt value types *)

Definition QString := string.
Definition QUrl := string.

(** [QJsonValue]: the seven types of [QJsonValue::Type]. An object maps keys
    to values; the files never look at the order of its keys. *)
#[warnings="-register-all"] Inductive QJsonValue : Type :=
  | Null
  | Bool (b : bool)
  | Double (d : spec_float)
  | String (s : QString)
  | Array (a : list QJsonValue)
  | Object (o : gmap string QJsonValue)
  | Undefined.

Abbreviation QJsonObject := (gmap string QJsonValue).
Abbreviation QJsonArray := (list QJsonValue).

Module QJsonValue.

Definition isObject (v : QJsonValue) : bool :=
  match v with Object _ => true | _ => false end.

Definition isArray (v : QJsonValue) : bool :=
  match v with Array _ => true | _ => false end.

Definition isString (v : QJsonValue) : bool :=
  match v with String _ => true | _ => false end.

(** [toString()]: the string, or a null [QString] for any other type. *)
Definition toString (v : QJsonValue) : QString :=
  match v with String s => s | _ => "" end.

(** [toObject()]: the object, or an empty one for any other type. *)
Definition toObject (v : QJsonValue) : QJsonObject :=
  match v with Object o => o | _ => ∅ end.

(** [toArray()]: the array, or an empty one for any other type. *)
Definition toArray (v : QJsonValue) : QJsonArray :=
  match v with Array a => a | _ => [] end.

End QJsonValue.

Module QJsonObject.

(** [value(key)]: the value stored under [key], [Undefined] without one. *)
Definition value (o : QJsonObject) (key : string) : QJsonValue :=
  default Undefined (o !! key).

End QJsonObject.

(** [QJsonDocument::fromJson] yields a null document for bytes that are not
    JSON, and otherwise a document holding an array or an object. *)
Inductive QJsonDocument : Type :=
  | NullDocument
  | ArrayDocument (a : QJsonArray)
  | ObjectDocument (o : QJsonObject).

Module QJsonDocument.

Definition isObject (d : QJsonDocument) : bool :=
  match d with ObjectDocument _ => true | _ => false end.

(** [object()]: the object, or an empty one when the document has none. *)
Definition object (d : QJsonDocument) : QJsonObject :=
  match d with ObjectDocument o => o | _ => ∅ end.

End QJsonDocument.

(** [QVariant], as far as [RedditModel::data] builds one: the invalid
    variant [QVariant()] or one holding a [QString]. *)
Inductive QVariant : Type :=
  | Invalid
  | VString (s : QString).

(** ** Assertions *)

(** What ends a run early: a [Q_ASSERT] of redditmodel.cpp or of
    redditwrapper.cpp whose condition is false, named by its line (no line
    holds an assertion in both files), or a [Q_ASSERT_X] of a Qt container
    or class, named as Qt reports it. *)
Inductive Failure : Type :=
  | ASSERT (line : positive)
  | ASSERT_X (where_ what : string).

Inductive Run (A : Type) : Type :=
  | Done (a : A)
  | Abort (f : Failure).
Arguments Done {A} a.
Arguments Abort {A} f.

#[global] Instance Run_ret : MRet Run := λ A a, Done a.
#[global] Instance Run_bind : MBind Run := λ A B k c,
  match c with
  | Done a => k a
  | Abort f => Abort f
  end.

Definition Q_ASSERT (line : positive) (cond : bool) : Run unit :=
  if cond then Done tt else Abort (ASSERT line).

Definition Q_ASSERT_X (cond : bool) (where_ what : string) : Run unit :=
  if cond then Done tt else Abort (ASSERT_X where_ what).

Definition aborted {A} (c : Run A) : bool :=
  match c with Done _ => false | Abort _ => true end.

(** ** Network replies *)

Module QNetworkReply.

(** [QNetworkReply::NetworkError]: [NoError] is 0, every other code an
    error. *)
Inductive NetworkError : Type :=
  | NoError
  | Error (code : positive).

Definition is_NoError (e : NetworkError) : bool :=
  match e with NoError => true | Error _ => false end.

(** A finished reply. [body] is the document that
    [QJsonDocument::fromJson(reply->readAll())] yields: the parser is Qt's
    and the handlers read the bytes through it only. *)
Record t : Type := mk {
  error : NetworkError;
  errorString : QString;
  body : QJsonDocument;
}.

End QNetworkReply.

(** ** Model indexes *)

Module QModelIndex.

(** The model an index points to: none for [QModelIndex()], else this
    model or another one. *)
Inductive Model : Type :=
  | nullptr
  | this
  | other.

Record t : Type := mk {
  row : Z;
  column : Z;
  model : Model;
}.

(** [QModelIndex()] *)
Definition null : t := mk (-1) (-1) nullptr.

(** [isValid()]: [(r >= 0) && (c >= 0) && (m != nullptr)] *)
Definition isValid (i : t) : bool :=
  (0 <=? row i) && (0 <=? column i)
  && match model i with nullptr => false | _ => true end.

End QModelIndex.

(** [Qt::DisplayRole] *)
Definition DisplayRole : Z := 0.

(** ** RedditWrapper (redditwrapper.cpp) *)

Definition newUrl : QUrl := "https://oauth.reddit.com/new".
Definition hotUrl : QUrl := "https://oauth.reddit.com/hot".
Definition liveThreadsUrl : QUrl := "https://oauth.reddit.com/live/XXXX/about.json".

(** [QVariantMap] *)
Abbreviation QVariantMap := (gmap string QVariant).

Module RedditWrapper.

(** [QAbstractOAuth::Status] *)
Inductive Status : Type :=
  | NotAuthenticated
  | TemporaryCredentialsReceived
  | Granted
  | RefreshingToken.

Definition is_Granted (s : Status) : bool :=
  match s with Granted => true | _ => false end.

(** The wrapper and the state of its [oauth2] member that the two files
    reach: the client identifier, the status of the flow, the calls of
    [oauth2.grant()] and the GET requests handed to [oauth2.get]. *)
Record t : Type := mk {
  clientIdentifier : QString;
  status : Status;
  permanent : bool;
  grants : nat;
  requests : list QUrl;
}.

(** [RedditWrapper(QObject *parent)] *)
Definition new : t :=
  {| clientIdentifier := ""; status := NotAuthenticated;
     permanent := false; grants := 0%nat; requests := [] |}.

(** [RedditWrapper(const QString &clientIdentifier, QObject *parent)] *)
Definition new_client (clientIdentifier : QString) : t :=
  {| clientIdentifier := clientIdentifier; status := status new;
     permanent := permanent new; grants := grants new;
     requests := requests new |}.

(** [requestHotThreads()]: [return oauth2.get(hotUrl);] The reply is the
    one of the request added last. *)
Definition requestHotThreads (w : t) : t :=
  {| clientIdentifier := clientIdentifier w; status := status w;
     permanent := permanent w; grants := grants w;
     requests := requests w ++ [hotUrl] |}.

Definition isPermanent (w : t) : bool := permanent w.

Definition setPermanent (value : bool) (w : t) : t :=
  {| clientIdentifier := clientIdentifier w; status := status w;
     permanent := value; grants := grants w; requests := requests w |}.

(** [grant()]: [oauth2.grant();] *)
Definition grant (w : t) : t :=
  {| clientIdentifier := clientIdentifier w; status := status w;
     permanent := permanent w; grants := S (grants w);
     requests := requests w |}.

(** [oauth2] reports a new status. The lambda connected to
    [statusChanged] in the constructor emits [authenticated] when the
    status is [Granted]: the result says whether it does. *)
Definition statusChanged (s : Status) (w : t) : t * bool :=
  ({| clientIdentifier := clientIdentifier w; status := s;
      permanent := permanent w; grants := grants w;
      requests := requests w |},
   is_Granted s).

(** [QAbstractOAuth::Stage] *)
Inductive Stage : Type :=
  | RequestingTemporaryCredentials
  | RequestingAuthorization
  | RequestingAccessToken
  | RefreshingAccessToken.

Definition is_RequestingAuthorization (stage : Stage) : bool :=
  match stage with RequestingAuthorization => true | _ => false end.

(** The lambda given to [oauth2.setModifyParametersFunction] in the
    constructor. It captures the wrapper by reference: [isPermanent()] is
    read when the flow calls it. The result is the map [*parameters] holds
    afterwards. *)
Definition modifyParameters
    (w : t) (stage : Stage) (parameters : QVariantMap) : QVariantMap :=
  if is_RequestingAuthorization stage && isPermanent w
  then <["duration" := VString "permanent"]> parameters
  else parameters.

(** [subscribeToLiveUpdates()], up to the [connect]:
    [oauth2.get(liveThreadsUrl)]. *)
Definition subscribeToLiveUpdates (w : t) : t :=
  {| clientIdentifier := clientIdentifier w; status := status w;
     permanent := permanent w; grants := grants w;
     requests := requests w ++ [liveThreadsUrl] |}.

(** What the lambda of [subscribeToLiveUpdates] lets out: the line it
    writes with [qCritical()], which is [Reddit error:] and the error
    string, or the signal [subscribed(const QUrl &)]. *)
Inductive Notice : Type :=
  | qCritical (errorString : QString)
  | subscribed (websocketUrl : QUrl).

(** The lambda that [subscribeToLiveUpdates] connects to
    [QNetworkReply::finished]; the lines are those of redditwrapper.cpp. *)
Definition subscribeToLiveUpdates_finished (reply : QNetworkReply.t) : Run Notice :=
  if negb (QNetworkReply.is_NoError (QNetworkReply.error reply)) then
    Done (qCritical (QNetworkReply.errorString reply))
  else
    let document := QNetworkReply.body reply in
    Q_ASSERT 123 (QJsonDocument.isObject document);;
    let rootObject := QJsonDocument.object document in
    let dataValue := QJsonObject.value rootObject "data" in
    Q_ASSERT 126 (QJsonValue.isObject dataValue);;
    let dataObject := QJsonValue.toObject dataValue in
    let websocketUrlValue := QJsonObject.value dataObject "websocket_url" in
    Q_ASSERT 129 (QJsonValue.isString websocketUrlValue
                  && negb (String.length (QJsonValue.toString websocketUrlValue)
                           =? 0)%nat);;
    let websocketUrl : QUrl := QJsonValue.toString websocketUrlValue in
    Done (subscribed websocketUrl).

End RedditWrapper.

(** ** Qt containers *)

Definition size {A} (l : list A) : Z := Z.of_nat (length l).

(** [QList::at(i)]: the element at [i]; the index must be in range. *)
Definition at_ {A} (l : list A) (i : Z) : Run A :=
  Q_ASSERT_X ((0 <=? i) && (i <? size l)) "QList::at" "index out of range";;
  match l !! Z.to_nat i with
  | Some x => Done x
  | None => Abort (ASSERT_X "QList::at" "index out of range")
  end.

(** A range-based [for] over a container, its body run on the state. *)
Fixpoint for_each {A S} (l : list A) (body : A → S → Run S) (s : S) : Run S :=
  match l with
  | [] => Done s
  | x :: l' => s' ← body x s; for_each l' body s'
  end.

(** ** Signals *)

(** The signals of [RedditModel]: its own [error(const QString &)] and the
    two that [QAbstractItemModel] emits around an insertion of rows. *)
Inductive Signal : Type :=
  | error (message : QString)
  | rowsAboutToBeInserted (first last : Z)
  | rowsInserted (first last : Z).

(** An emission: the signal, and the records of the model while the signal
    is delivered, which is what a connected slot reads through [rowCount]
    and [data]. *)
Record Emission : Type := {
  signal : Signal;
  seen : list QJsonObject;
}.

(** ** RedditModel (redditmodel.cpp) *)

Module RedditModel.

(** The members [threads] and [redditWrapper], and what the [QObject] and
    [QAbstractItemModel] bases hold for the model: the connections from
    [RedditWrapper::authenticated] to [RedditModel::update], the stack of
    insertions begun and not ended, and the signals emitted so far. *)
Record t : Type := mk {
  threads : list QJsonObject;
  redditWrapper : RedditWrapper.t;
  connections : nat;
  changes : list (Z * Z);
  emitted : list Emission;
}.

Definition set_threads (f : list QJsonObject → list QJsonObject) (m : t) : t :=
  mk (f (threads m)) (redditWrapper m) (connections m) (changes m) (emitted m).
Definition set_redditWrapper (f : RedditWrapper.t → RedditWrapper.t) (m : t) : t :=
  mk (threads m) (f (redditWrapper m)) (connections m) (changes m) (emitted m).
Definition set_connections (f : nat → nat) (m : t) : t :=
  mk (threads m) (redditWrapper m) (f (connections m)) (changes m) (emitted m).
Definition set_changes (f : list (Z * Z) → list (Z * Z)) (m : t) : t :=
  mk (threads m) (redditWrapper m) (connections m) (f (changes m)) (emitted m).

(** [emit s]: the connected slots run now, on the current records. *)
Definition emit (s : Signal) (m : t) : t :=
  mk (threads m) (redditWrapper m) (connections m) (changes m)
     (emitted m ++ [{| signal := s; seen := threads m |}]).

(** [int rowCount(const QModelIndex &parent) const] *)
Definition rowCount (m : t) : Z :=
  size (threads m).

(** [int columnCount(const QModelIndex &parent) const] *)
Definition columnCount (m : t) : Z :=
  if negb (size (threads m) =? 0) then 1 else 0.

(** [QVariant data(const QModelIndex &index, int role) const] *)
Definition data (m : t) (index : QModelIndex.t) (role : Z) : Run QVariant :=
  if negb (QModelIndex.isValid index) then
    Done Invalid
  else if role =? DisplayRole then
    childrenObject ← at_ (threads m) (QModelIndex.row index);
    Q_ASSERT 85 (QJsonValue.isObject (QJsonObject.value childrenObject "data"));;
    let dataObject := QJsonValue.toObject (QJsonObject.value childrenObject "data") in
    Done (VString (QJsonValue.toString (QJsonObject.value dataObject "title")))
  else
    Done Invalid.

(** *** Inherited from [QAbstractItemModel] and [QAbstractTableModel] *)

(** [hasIndex(row, column, parent)] *)
Definition hasIndex (m : t) (row column : Z) : bool :=
  if (row <? 0) || (column <? 0) then false
  else (row <? rowCount m) && (column <? columnCount m).

(** [createIndex(row, column)] *)
Definition createIndex (row column : Z) : QModelIndex.t :=
  QModelIndex.mk row column QModelIndex.this.

(** [QAbstractTableModel::index(row, column, parent)] *)
Definition index (m : t) (row column : Z) : QModelIndex.t :=
  if hasIndex m row column then createIndex row column else QModelIndex.null.

(** [beginInsertRows(parent, first, last)]: checks its arguments, records
    the insertion and emits [rowsAboutToBeInserted]. *)
Definition beginInsertRows (first last : Z) (m : t) : Run t :=
  Q_ASSERT_X (0 <=? first) "QAbstractItemModel::beginInsertRows" "first >= 0";;
  Q_ASSERT_X (first <=? rowCount m) "QAbstractItemModel::beginInsertRows"
             "first <= rowCount(parent)";;
  Q_ASSERT_X (first <=? last) "QAbstractItemModel::beginInsertRows" "last >= first";;
  Done (emit (rowsAboutToBeInserted first last)
             (set_changes (cons (first, last)) m)).

(** [endInsertRows()]: takes the insertion begun last and emits
    [rowsInserted] for it. *)
Definition endInsertRows (m : t) : Run t :=
  match changes m with
  | [] => Abort (ASSERT_X "QStack::pop" "!isEmpty()")
  | (first, last) :: rest =>
      Done (emit (rowsInserted first last) (set_changes (λ _, rest) m))
  end.

(** *** Slots *)

(** [void update()]: the request is handed to the wrapper. The lambda that
    the [connect] attaches to the reply's [finished] is [update_finished]
    below; its [reply->deleteLater()] frees the reply and leaves the model
    alone. *)
Definition update (m : t) : t :=
  set_redditWrapper RedditWrapper.requestHotThreads m.

(** [threads.append(object)] *)
Definition append (object : QJsonObject) (m : t) : t :=
  set_threads (λ l, l ++ [object]) m.

(** The body of the loop over [childrenArray]. *)
Definition append_child (childValue : QJsonValue) (m : t) : Run t :=
  Q_ASSERT 125 (QJsonValue.isObject childValue);;
  Done (append (QJsonValue.toObject childValue) m).

(** The lambda that [update] connects to [QNetworkReply::finished]. *)
Definition update_finished (reply : QNetworkReply.t) (m : t) : Run t :=
  if negb (QNetworkReply.is_NoError (QNetworkReply.error reply)) then
    Done (emit (error (QNetworkReply.errorString reply)) m)
  else
    let document := QNetworkReply.body reply in
    Q_ASSERT 110 (QJsonDocument.isObject document);;
    let rootObject := QJsonDocument.object document in
    Q_ASSERT 112 (String.eqb (QJsonValue.toString (QJsonObject.value rootObject "kind"))
                             "Listing");;
    let dataValue := QJsonObject.value rootObject "data" in
    Q_ASSERT 114 (QJsonValue.isObject dataValue);;
    let dataObject := QJsonValue.toObject dataValue in
    let childrenValue := QJsonObject.value dataObject "children" in
    Q_ASSERT 117 (QJsonValue.isArray childrenValue);;
    let childrenArray := QJsonValue.toArray childrenValue in
    if size childrenArray =? 0 then
      Done m
    else
      m ← beginInsertRows (size (threads m))
                          (size childrenArray + size (threads m) - 1) m;
      m ← for_each childrenArray append_child m;
      endInsertRows m.

(** [void grant()] *)
Definition grant (m : t) : t :=
  set_connections S (set_redditWrapper RedditWrapper.grant m).

(** [RedditModel(QObject *parent)] *)
Definition new : t :=
  mk [] RedditWrapper.new 0%nat [] [].

(** [RedditModel(const QString &clientId, QObject *parent)] *)
Definition new_client (clientId : QString) : t :=
  grant (mk [] (RedditWrapper.new_client clientId) 0%nat [] []).

(** *** The event loop *)

(** What the model reacts to: a status reported by the OAuth flow of its
    wrapper, a call of [grant] or of [update], and the end of a reply. *)
Inductive Event : Type :=
  | StatusChanged (s : RedditWrapper.Status)
  | Grant
  | Update
  | Finished (reply : QNetworkReply.t).

(** [RedditWrapper::authenticated] is emitted: every connection made in
    [grant] calls [update]. *)
Definition authenticated (m : t) : t :=
  Nat.iter (connections m) update m.

Definition step (m : t) (e : Event) : Run t :=
  match e with
  | StatusChanged s =>
      let '(w, fires) := RedditWrapper.statusChanged s (redditWrapper m) in
      let m := set_redditWrapper (λ _, w) m in
      Done (if fires then authenticated m else m)
  | Grant => Done (grant m)
  | Update => Done (update m)
  | Finished reply => update_finished reply m
  end.

(** A run of the event loop; an assertion that fails ends it. *)
Fixpoint run (m : t) (es : list Event) : Run t :=
  match es with
  | [] => Done m
  | e :: es' => m' ← step m e; run m' es'
  end.

End RedditModel.

(** * Properties *)

Import RedditModel.

(** ** The listing envelope

    The shape the hot-listing endpoint answers with, read off the document
    itself: an object whose [kind] is the string [Listing] and whose [data]
    is an object with an array [children]. *)

Definition listing_children (d : QJsonDocument) : option QJsonArray :=
  match d with
  | ObjectDocument root =>
      match root !! "kind", root !! "data" with
      | Some (String kind), Some (Object data) =>
          match data !! "children" with
          | Some (Array children) =>
              if String.eqb kind "Listing" then Some children else None
          | _ => None
          end
      | _, _ => None
      end
  | _ => None
  end.

(** The five requirements on a document, one by one. *)
Definition root_is_object (d : QJsonDocument) : bool :=
  match d with ObjectDocument _ => true | _ => false end.

Definition kind_is_Listing (d : QJsonDocument) : bool :=
  match d with
  | ObjectDocument root =>
      match root !! "kind" with
      | Some (String kind) => String.eqb kind "Listing"
      | _ => false
      end
  | _ => false
  end.

Definition data_of (d : QJsonDocument) : option QJsonValue :=
  match d with ObjectDocument root => root !! "data" | _ => None end.

Definition data_is_object (d : QJsonDocument) : bool :=
  match data_of d with Some (Object _) => true | _ => false end.

Definition children_of (d : QJsonDocument) : option QJsonValue :=
  match data_of d with Some (Object data) => data !! "children" | _ => None end.

Definition children_is_array (d : QJsonDocument) : bool :=
  match children_of d with Some (Array _) => true | _ => false end.

Definition every_child_is_object (d : QJsonDocument) : bool :=
  match children_of d with
  | Some (Array children) => forallb QJsonValue.isObject children
  | _ => true
  end.

Definition well_shaped (d : QJsonDocument) : bool :=
  root_is_object d && kind_is_Listing d && data_is_object d
  && children_is_array d && every_child_is_object d.

(** A completion is successful with children [cs] when the transport
    reports no error and the body is a listing of the objects [cs]. *)
Definition successful (reply : QNetworkReply.t) (cs : QJsonArray) : Prop :=
  QNetworkReply.error reply = QNetworkReply.NoError
  ∧ listing_children (QNetworkReply.body reply) = Some cs
  ∧ Forall (λ c, QJsonValue.isObject c = true) cs.

(** The [data.title] of a child, read as [RedditModel::data] reads it. *)
Definition title (child : QJsonValue) : QString :=
  QJsonValue.toString
    (QJsonObject.value
       (QJsonValue.toObject (QJsonObject.value (QJsonValue.toObject child) "data"))
       "title").

Definition has_data_object (child : QJsonValue) : bool :=
  QJsonValue.isObject (QJsonObject.value (QJsonValue.toObject child) "data").

(** The listing of [cs], with no other field. *)
Definition listing (cs : QJsonArray) : QJsonDocument :=
  ObjectDocument
    (<["kind" := String "Listing"]>
       (<["data" := Object (<["children" := Array cs]> ∅)]> ∅)).

(** A reply without transport error that carries the listing of [cs]. *)
Definition listing_reply (cs : QJsonArray) : QNetworkReply.t :=
  QNetworkReply.mk QNetworkReply.NoError "" (listing cs).

(** A link post with the given title. *)
Definition link (t : QString) : QJsonValue :=
  Object (<["kind" := String "t3"]>
            (<["data" := Object (<["title" := String t]> ∅)]> ∅)).

(** The model after a batch [cs] of objects has been inserted into [m]:
    the records appended, and the two signals of the insertion, the first
    delivered on the old records and the second on the new ones. *)
Definition inserted (cs : QJsonArray) (m : RedditModel.t) : RedditModel.t :=
  let first := size (threads m) in
  let last := size cs + size (threads m) - 1 in
  let threads' := threads m ++ (QJsonValue.toObject <$> cs) in
  RedditModel.mk threads' (redditWrapper m) (connections m) (changes m)
    (emitted m ++ [ {| signal := rowsAboutToBeInserted first last; seen := threads m |};
                    {| signal := rowsInserted first last; seen := threads' |} ]).

(** The replies that finish in a run, in their order. *)
Fixpoint completions (es : list Event) : list QNetworkReply.t :=
  match es with
  | [] => []
  | Finished reply :: es' => reply :: completions es'
  | _ :: es' => completions es'
  end.

(** ** Vocabulary of runs *)

(** The children array that a completion hands to the loop: nothing when
    the transport reports an error. *)
Definition batch (reply : QNetworkReply.t) : QJsonArray :=
  if QNetworkReply.is_NoError (QNetworkReply.error reply)
  then match children_of (QNetworkReply.body reply) with
       | Some (Array cs) => cs
       | _ => []
       end
  else [].

Definition failed (reply : QNetworkReply.t) : bool :=
  negb (QNetworkReply.is_NoError (QNetworkReply.error reply)).

(** The messages of the [error] signals of a log, in their order. *)
Definition errors (log : list Emission) : list QString :=
  omap (λ e, match signal e with error message => Some message | _ => None end) log.

(** The ranges of the [rowsInserted] signals of a log, in their order. *)
Definition rows_inserted (log : list Emission) : list (Z * Z) :=
  omap (λ e, match signal e with
             | rowsInserted first last => Some (first, last)
             | _ => None
             end) log.

(** Ranges that follow one another without gap or overlap from [start] on,
    none of them empty: the row after the last one, if they do. *)
Fixpoint tiles (start : Z) (ranges : list (Z * Z)) : option Z :=
  match ranges with
  | [] => Some start
  | (first, last) :: ranges' =>
      if (first =? start) && (first <=? last) then tiles (last + 1) ranges'
      else None
  end.

(** An emission agrees with the records [final] the model ends with: what
    the observer saw is still there, at the same rows, and a range it was
    told about starts at the end of what it saw before the insertion and
    ends at the end of what it saw after. *)
Definition agrees (final : list QJsonObject) (e : Emission) : Prop :=
  seen e `prefix_of` final
  ∧ match signal e with
    | error _ => True
    | rowsAboutToBeInserted first last => size (seen e) = first ∧ first ≤ last
    | rowsInserted first last => size (seen e) = last + 1 ∧ 0 ≤ first ≤ last
    end.

(** The address that a reply for the live thread carries: the
    [websocket_url] of the [data] object of the root object, when it is a
    string that is not empty. *)
Definition live_url (d : QJsonDocument) : option QUrl :=
  match d with
  | ObjectDocument root =>
      match root !! "data" with
      | Some (Object data) =>
          match data !! "websocket_url" with
          | Some (String url) => if decide (url = "") then None else Some url
          | _ => None
          end
      | _ => None
      end
  | _ => None
  end.

(** ** Auxiliary facts *)

Lemma size_nonneg {A} (l : list A) : 0 ≤ size l.
Proof. unfold size. lia. Qed.

Lemma size_app {A} (l k : list A) : size (l ++ k) = size l + size k.
Proof. unfold size. rewrite length_app. lia. Qed.

Lemma size_zero {A} (l : list A) : size l = 0 ↔ l = [].
Proof. unfold size. destruct l; simpl; split; intros; (done || lia). Qed.

Lemma at_lookup {A} (l : list A) (i : nat) (x : A) :
  l !! i = Some x → at_ l (Z.of_nat i) = Done x.
Proof.
  intros Hx. unfold at_, Q_ASSERT_X, size.
  pose proof (lookup_lt_Some _ _ _ Hx) as Hlt.
  destruct (0 <=? Z.of_nat i) eqn:H0; [|lia].
  destruct (Z.of_nat i <? Z.of_nat (length l)) eqn:H1; [|lia].
  simpl. rewrite Nat2Z.id, Hx. reflexivity.
Qed.

Lemma at_out_of_range {A} (l : list A) (i : Z) :
  i < 0 ∨ size l ≤ i →
  at_ l i = Abort (ASSERT_X "QList::at" "index out of range").
Proof.
  intros Hi. unfold at_, Q_ASSERT_X.
  destruct ((0 <=? i) && (i <? size l)) eqn:Hc; [|reflexivity].
  apply andb_true_iff in Hc as [? ?]. lia.
Qed.

Lemma append_child_object (c : QJsonValue) (m : RedditModel.t) :
  QJsonValue.isObject c = true →
  append_child c m = Done (append (QJsonValue.toObject c) m).
Proof. intros Hc. unfold append_child. by rewrite Hc. Qed.

Lemma append_child_other (c : QJsonValue) (m : RedditModel.t) :
  QJsonValue.isObject c = false →
  append_child c m = Abort (ASSERT 125).
Proof. intros Hc. unfold append_child. by rewrite Hc. Qed.

(** The loop of [update_finished] on children that are all objects: every
    one is appended, in order, and nothing else changes. *)
Lemma for_each_append_child (cs : QJsonArray) (m : RedditModel.t) :
  Forall (λ c, QJsonValue.isObject c = true) cs →
  for_each cs append_child m
  = Done (set_threads (λ l, l ++ (QJsonValue.toObject <$> cs)) m).
Proof.
  intros Hcs. revert m. induction Hcs as [|c cs Hc _ IH]; intros m.
  - cbn. unfold set_threads. rewrite app_nil_r. by destruct m.
  - cbn [for_each]. rewrite (append_child_object _ _ Hc). cbn [mbind Run_bind].
    rewrite IH. unfold append, set_threads. cbn.
    by rewrite <- app_assoc.
Qed.

(** The loop stops at the first child that is not an object. *)
Lemma for_each_append_child_abort (cs : QJsonArray) (m : RedditModel.t) :
  forallb QJsonValue.isObject cs = false →
  for_each cs append_child m = Abort (ASSERT 125).
Proof.
  revert m. induction cs as [|c cs IH]; intros m; cbn [forallb for_each]; [done|].
  destruct (QJsonValue.isObject c) eqn:Hc.
  - rewrite (append_child_object _ _ Hc). cbn. apply IH.
  - by rewrite (append_child_other _ _ Hc).
Qed.

Lemma listing_children_shape (d : QJsonDocument) (cs : QJsonArray) :
  listing_children d = Some cs →
  QJsonDocument.isObject d = true
  ∧ QJsonValue.toString (QJsonObject.value (QJsonDocument.object d) "kind") = "Listing"
  ∧ QJsonValue.isObject (QJsonObject.value (QJsonDocument.object d) "data") = true
  ∧ QJsonObject.value
      (QJsonValue.toObject (QJsonObject.value (QJsonDocument.object d) "data"))
      "children" = Array cs.
Proof.
  unfold listing_children, QJsonObject.value.
  destruct d as [| |root]; try done. simpl.
  destruct (root !! "kind") as [[| | |kind| | |]|]; try done.
  destruct (root !! "data") as [[| | | | |data|]|]; try done. simpl.
  destruct (data !! "children") as [[| | | |children| |]|]; try done.
  destruct (String.eqb kind "Listing") eqn:Hk; [|done].
  apply String.eqb_eq in Hk. intros [= ->]. done.
Qed.

Lemma update_finished_successful reply cs m :
  successful reply cs →
  update_finished reply m = Done (if size cs =? 0 then m else inserted cs m).
Proof.
  intros (Herr & Hshape & Hcs).
  apply listing_children_shape in Hshape as (Hroot & Hkind & Hdata & Hchildren).
  unfold update_finished. rewrite Herr. cbn [QNetworkReply.is_NoError negb].
  rewrite Hroot, Hkind, Hdata, Hchildren. cbn.
  destruct (size cs =? 0) eqn:Hsize; [done|].
  apply Z.eqb_neq in Hsize. pose proof (size_nonneg cs).
  pose proof (size_nonneg (threads m)).
  unfold beginInsertRows, Q_ASSERT_X, rowCount.
  destruct (0 <=? size (threads m)) eqn:H1; [|lia].
  destruct (size (threads m) <=? size (threads m)) eqn:H2; [|lia].
  destruct (size (threads m) <=? size cs + size (threads m) - 1) eqn:H3; [|lia].
  cbn. rewrite (for_each_append_child _ _ Hcs). cbn.
  unfold endInsertRows, emit, set_changes, set_threads, inserted. cbn.
  by rewrite <- app_assoc.
Qed.

Lemma update_finished_error reply m :
  QNetworkReply.error reply ≠ QNetworkReply.NoError →
  update_finished reply m = Done (emit (error (QNetworkReply.errorString reply)) m).
Proof.
  intros Herr. unfold update_finished.
  destruct (QNetworkReply.error reply); [done|reflexivity].
Qed.

(** [update] and the delivery of [authenticated] do not touch the records;
    a handler that returns leaves the records it found in place and at most
    adds records behind them. *)
Lemma authenticated_threads m : threads (authenticated m) = threads m.
Proof.
  unfold authenticated. induction (connections m) as [|n IH]; [done|].
  rewrite Nat.iter_succ. exact IH.
Qed.

Lemma beginInsertRows_Done first last m m1 :
  beginInsertRows first last m = Done m1 →
  m1 = emit (rowsAboutToBeInserted first last) (set_changes (cons (first, last)) m).
Proof.
  unfold beginInsertRows, Q_ASSERT_X.
  destruct (0 <=? first), (first <=? rowCount m), (first <=? last); cbn; congruence.
Qed.

Lemma update_finished_prefix reply m m' :
  update_finished reply m = Done m' → threads m `prefix_of` threads m'.
Proof.
  unfold update_finished.
  destruct (QNetworkReply.is_NoError (QNetworkReply.error reply)); cbn.
  2:{ intros [= <-]. done. }
  destruct (Q_ASSERT 110 _); cbn; [|done].
  destruct (Q_ASSERT 112 _); cbn; [|done].
  destruct (Q_ASSERT 114 _); cbn; [|done].
  destruct (Q_ASSERT 117 _); cbn; [|done].
  set (cs := QJsonValue.toArray _).
  destruct (size cs =? 0); [intros [= <-]; done|].
  destruct (beginInsertRows _ _ m) as [m1|] eqn:Hbegin; cbn; [|done].
  assert (threads m1 = threads m) as Hm1.
  { by rewrite (beginInsertRows_Done _ _ _ _ Hbegin). }
  destruct (forallb QJsonValue.isObject cs) eqn:Hall.
  - rewrite for_each_append_child.
    2:{ apply Forall_forall. intros c Hc. rewrite forallb_forall in Hall.
        apply Hall. by apply list_elem_of_In. }
    cbn. unfold endInsertRows. cbn.
    destruct (changes m1) as [|[first last] rest]; [done|].
    intros [= <-]. cbn. rewrite Hm1. by eexists.
  - by rewrite for_each_append_child_abort.
Qed.

(** The conditions that [update_finished] asserts are the five requirements
    on the document. *)
Lemma assert_112 d :
  String.eqb (QJsonValue.toString (QJsonObject.value (QJsonDocument.object d) "kind"))
             "Listing"
  = kind_is_Listing d.
Proof.
  unfold QJsonObject.value, kind_is_Listing.
  destruct d as [| |root]; cbn; rewrite ?lookup_empty; try done.
  by destruct (root !! "kind") as [[]|].
Qed.

Lemma assert_114 d :
  QJsonValue.isObject (QJsonObject.value (QJsonDocument.object d) "data")
  = data_is_object d.
Proof.
  unfold QJsonObject.value, data_is_object, data_of.
  destruct d as [| |root]; cbn; rewrite ?lookup_empty; try done.
  by destruct (root !! "data") as [[]|].
Qed.

Lemma children_value d :
  QJsonObject.value
    (QJsonValue.toObject (QJsonObject.value (QJsonDocument.object d) "data"))
    "children"
  = default Undefined (children_of d).
Proof.
  unfold QJsonObject.value, children_of, data_of.
  destruct d as [| |root]; cbn; rewrite ?lookup_empty; try done.
  destruct (root !! "data") as [[]|]; cbn; rewrite ?lookup_empty; done.
Qed.

Lemma assert_117 d :
  QJsonValue.isArray
    (QJsonObject.value
       (QJsonValue.toObject (QJsonObject.value (QJsonDocument.object d) "data"))
       "children")
  = children_is_array d.
Proof.
  rewrite children_value. unfold children_is_array.
  by destruct (children_of d) as [[]|].
Qed.

Lemma well_shaped_listing d :
  well_shaped d = true →
  ∃ cs, listing_children d = Some cs
        ∧ Forall (λ c, QJsonValue.isObject c = true) cs.
Proof.
  unfold well_shaped, root_is_object, kind_is_Listing, data_is_object,
    children_is_array, every_child_is_object, children_of, data_of,
    listing_children.
  destruct d as [| |root]; cbn; try done.
  destruct (root !! "kind") as [[| | |kind| | |]|]; cbn; try done.
  destruct (root !! "data") as [[| | | | |data|]|]; cbn;
    rewrite ?andb_false_r; try done.
  destruct (data !! "children") as [[| | | |cs| |]|]; cbn;
    rewrite ?andb_false_r; try done.
  destruct (String.eqb kind "Listing"); cbn; [|done].
  intros Hall. exists cs. split; [done|].
  apply Forall_forall. intros c Hc. rewrite forallb_forall in Hall.
  apply Hall. by apply list_elem_of_In.
Qed.

Lemma listing_well_shaped d cs :
  listing_children d = Some cs →
  Forall (λ c, QJsonValue.isObject c = true) cs →
  well_shaped d = true.
Proof.
  unfold well_shaped, root_is_object, kind_is_Listing, data_is_object,
    children_is_array, every_child_is_object, children_of, data_of,
    listing_children.
  destruct d as [| |root]; cbn; try done.
  destruct (root !! "kind") as [[| | |kind| | |]|]; cbn; try done.
  destruct (root !! "data") as [[| | | | |data|]|]; cbn; try done.
  destruct (data !! "children") as [[| | | |cs'| |]|]; cbn; try done.
  destruct (String.eqb kind "Listing"); cbn; [|done].
  intros [= ->] Hall. apply forallb_forall. intros c Hc.
  rewrite Forall_forall in Hall. apply Hall. by apply list_elem_of_In.
Qed.

(** ** The claims *)

(** C2. A completion that signals a transport error emits exactly one
    [error] signal, carrying the error string of the reply; the records are
    the ones before the call, also while the signal is delivered, and
    nothing else is emitted: no rows-inserted notification. *)
Theorem transport_error_only_notifies (reply : QNetworkReply.t) (m : RedditModel.t) :
  QNetworkReply.error reply ≠ QNetworkReply.NoError →
  ∃ m', update_finished reply m = Done m'
        ∧ threads m' = threads m
        ∧ emitted m'
          = emitted m ++ [ {| signal := error (QNetworkReply.errorString reply);
                              seen := threads m |} ]
        ∧ redditWrapper m' = redditWrapper m
        ∧ connections m' = connections m
        ∧ changes m' = changes m.
Proof.
  intros Herr. eexists. split; [by apply update_finished_error|]. done.
Qed.

Lemma transport_error_only_notifies_witness :
  ∃ m', update_finished
          (QNetworkReply.mk (QNetworkReply.Error 3) "Host not found" NullDocument)
          (inserted [link "A"] RedditModel.new) = Done m'
        ∧ threads m' = threads (inserted [link "A"] RedditModel.new)
        ∧ emitted m'
          = emitted (inserted [link "A"] RedditModel.new)
            ++ [ {| signal := error "Host not found";
                    seen := threads (inserted [link "A"] RedditModel.new) |} ]
        ∧ redditWrapper m' = redditWrapper (inserted [link "A"] RedditModel.new)
        ∧ connections m' = connections (inserted [link "A"] RedditModel.new)
        ∧ changes m' = changes (inserted [link "A"] RedditModel.new).
Proof.
  apply (transport_error_only_notifies
           (QNetworkReply.mk (QNetworkReply.Error 3) "Host not found" NullDocument)).
  simpl. discriminate.
Defined.

(** C6. A completion without transport error whose body is a listing with
    an empty [children] array leaves the model as it is: the same records,
    hence the same [rowCount], and no signal emitted. *)
Theorem empty_batch_silent (reply : QNetworkReply.t) (m : RedditModel.t) :
  QNetworkReply.error reply = QNetworkReply.NoError →
  listing_children (QNetworkReply.body reply) = Some [] →
  update_finished reply m = Done m
  ∧ ∀ m', update_finished reply m = Done m' →
          rowCount m' = rowCount m ∧ emitted m' = emitted m.
Proof.
  intros Herr Hshape.
  assert (update_finished reply m = Done m) as Hm.
  { by rewrite (update_finished_successful reply [] m). }
  split; [done|]. intros m'. rewrite Hm. by intros [= <-].
Qed.

Lemma empty_batch_silent_witness :
  update_finished (listing_reply []) (inserted [link "A"] RedditModel.new)
  = Done (inserted [link "A"] RedditModel.new)
  ∧ ∀ m', update_finished (listing_reply []) (inserted [link "A"] RedditModel.new)
          = Done m' →
          rowCount m' = rowCount (inserted [link "A"] RedditModel.new)
          ∧ emitted m' = emitted (inserted [link "A"] RedditModel.new).
Proof.
  apply (empty_batch_silent (listing_reply [])); reflexivity.
Defined.

(** C8. [columnCount] is 0 when [rowCount] is 0 and 1 otherwise: it is 1
    exactly when there is a record. This holds of every model state,
    reachable or not. *)
Theorem columnCount_degenerate (m : RedditModel.t) :
  columnCount m = (if rowCount m =? 0 then 0 else 1)
  ∧ (columnCount m = 1 ↔ threads m ≠ []).
Proof.
  unfold columnCount, rowCount.
  destruct (size (threads m) =? 0) eqn:Hsize; cbn.
  - apply Z.eqb_eq, size_zero in Hsize. rewrite Hsize. split; [done|]. by split.
  - apply Z.eqb_neq in Hsize. split; [done|]. split; [|done].
    intros _ Hnil. apply Hsize. by apply size_zero.
Qed.

(** [update_finished] on a reply without transport error, with its
    assertions written on the five requirements. *)
Lemma update_finished_NoError reply m :
  QNetworkReply.error reply = QNetworkReply.NoError →
  update_finished reply m
  = (let d := QNetworkReply.body reply in
     let cs := QJsonValue.toArray (default Undefined (children_of d)) in
     Q_ASSERT 110 (root_is_object d);;
     Q_ASSERT 112 (kind_is_Listing d);;
     Q_ASSERT 114 (data_is_object d);;
     Q_ASSERT 117 (children_is_array d);;
     if size cs =? 0 then Done m
     else
       m ← beginInsertRows (size (threads m)) (size cs + size (threads m) - 1) m;
       m ← for_each cs append_child m;
       endInsertRows m).
Proof.
  intros Herr. unfold update_finished. rewrite Herr.
  cbn [QNetworkReply.is_NoError negb].
  rewrite assert_112, assert_114, assert_117, children_value. reflexivity.
Qed.

Lemma beginInsertRows_at_end k m :
  0 < k →
  beginInsertRows (size (threads m)) (k + size (threads m) - 1) m
  = Done (emit (rowsAboutToBeInserted (size (threads m)) (k + size (threads m) - 1))
               (set_changes (cons (size (threads m), k + size (threads m) - 1)) m)).
Proof.
  intros Hk. pose proof (size_nonneg (threads m)).
  unfold beginInsertRows, Q_ASSERT_X, rowCount.
  destruct (0 <=? size (threads m)) eqn:H1; [|lia].
  destruct (size (threads m) <=? size (threads m)) eqn:H2; [|lia].
  destruct (size (threads m) <=? k + size (threads m) - 1) eqn:H3; [|lia].
  reflexivity.
Qed.

(** C7. On a completion without transport error the handler asserts, in
    this order, that the root of the document is an object (line 110), that
    its [kind] is [Listing] (112), that its [data] is an object (114), that
    [data.children] is an array (117) and, in the loop, that every child is
    an object (125). The first requirement that fails aborts the run at its
    assertion; no violation ends in a result. A well-shaped document passes
    every assertion and the handler returns. *)
Theorem shape_violation_aborts (reply : QNetworkReply.t) (m : RedditModel.t) :
  QNetworkReply.error reply = QNetworkReply.NoError →
  (root_is_object (QNetworkReply.body reply) = false →
   update_finished reply m = Abort (ASSERT 110))
  ∧ (root_is_object (QNetworkReply.body reply) = true →
     kind_is_Listing (QNetworkReply.body reply) = false →
     update_finished reply m = Abort (ASSERT 112))
  ∧ (root_is_object (QNetworkReply.body reply) = true →
     kind_is_Listing (QNetworkReply.body reply) = true →
     data_is_object (QNetworkReply.body reply) = false →
     update_finished reply m = Abort (ASSERT 114))
  ∧ (root_is_object (QNetworkReply.body reply) = true →
     kind_is_Listing (QNetworkReply.body reply) = true →
     data_is_object (QNetworkReply.body reply) = true →
     children_is_array (QNetworkReply.body reply) = false →
     update_finished reply m = Abort (ASSERT 117))
  ∧ (root_is_object (QNetworkReply.body reply) = true →
     kind_is_Listing (QNetworkReply.body reply) = true →
     data_is_object (QNetworkReply.body reply) = true →
     children_is_array (QNetworkReply.body reply) = true →
     every_child_is_object (QNetworkReply.body reply) = false →
     update_finished reply m = Abort (ASSERT 125))
  ∧ (well_shaped (QNetworkReply.body reply) = false →
     aborted (update_finished reply m) = true)
  ∧ (well_shaped (QNetworkReply.body reply) = true →
     ∃ m', update_finished reply m = Done m').
Proof.
  intros Herr.
  set (d := QNetworkReply.body reply). set (outcome := update_finished reply m).
  assert (root_is_object d = true → kind_is_Listing d = true →
          data_is_object d = true → children_is_array d = true →
          every_child_is_object d = false → outcome = Abort (ASSERT 125)) as H125.
  { intros H1 H2 H3 H4 H5. subst outcome.
    rewrite (update_finished_NoError _ _ Herr). fold d. cbv zeta.
    rewrite H1, H2, H3, H4. cbn.
    unfold every_child_is_object in H5.
    destruct (children_of d) as [[| | | |cs| |]|]; try done. cbn.
    destruct cs as [|c cs]; [done|].
    assert ((size (c :: cs) =? 0) = false) as ->.
    { apply Z.eqb_neq. unfold size. cbn [length]. lia. }
    rewrite beginInsertRows_at_end by (unfold size; cbn [length]; lia).
    cbn [mbind Run_bind]. by rewrite for_each_append_child_abort. }
  repeat split; subst outcome.
  - intros H1. rewrite (update_finished_NoError _ _ Herr). fold d. cbv zeta.
    by rewrite H1.
  - intros H1 H2. rewrite (update_finished_NoError _ _ Herr). fold d. cbv zeta.
    by rewrite H1, H2.
  - intros H1 H2 H3. rewrite (update_finished_NoError _ _ Herr). fold d. cbv zeta.
    by rewrite H1, H2, H3.
  - intros H1 H2 H3 H4. rewrite (update_finished_NoError _ _ Herr). fold d.
    cbv zeta. by rewrite H1, H2, H3, H4.
  - exact H125.
  - unfold well_shaped. intros Hshape.
    destruct (root_is_object d) eqn:H1; cbn in Hshape.
    2:{ rewrite (update_finished_NoError _ _ Herr). fold d. cbv zeta.
        by rewrite H1. }
    destruct (kind_is_Listing d) eqn:H2; cbn in Hshape.
    2:{ rewrite (update_finished_NoError _ _ Herr). fold d. cbv zeta.
        by rewrite H1, H2. }
    destruct (data_is_object d) eqn:H3; cbn in Hshape.
    2:{ rewrite (update_finished_NoError _ _ Herr). fold d. cbv zeta.
        by rewrite H1, H2, H3. }
    destruct (children_is_array d) eqn:H4; cbn in Hshape.
    2:{ rewrite (update_finished_NoError _ _ Herr). fold d. cbv zeta.
        by rewrite H1, H2, H3, H4. }
    by rewrite H125.
  - intros Hshape. apply well_shaped_listing in Hshape as (cs & Hcs & Hall).
    eexists. by apply (update_finished_successful reply cs).
Qed.

Lemma shape_violation_aborts_witness :
  update_finished (listing_reply [link "A"; Null]) RedditModel.new = Abort (ASSERT 125)
  ∧ update_finished (QNetworkReply.mk QNetworkReply.NoError "" NullDocument)
      RedditModel.new = Abort (ASSERT 110)
  ∧ ∃ m', update_finished (listing_reply [link "A"]) RedditModel.new = Done m'.
Proof.
  split; [|split].
  - destruct (shape_violation_aborts (listing_reply [link "A"; Null]) RedditModel.new
                eq_refl) as (_ & _ & _ & _ & H & _).
    apply H; reflexivity.
  - destruct (shape_violation_aborts
                (QNetworkReply.mk QNetworkReply.NoError "" NullDocument)
                RedditModel.new eq_refl) as (H & _).
    apply H; reflexivity.
  - destruct (shape_violation_aborts (listing_reply [link "A"]) RedditModel.new
                eq_refl) as (_ & _ & _ & _ & _ & _ & H).
    apply H; reflexivity.
Defined.

(** ** Reading a cell *)

(** [index] of a row in range is the valid index of that row in column 0;
    of any other row, the invalid index. *)
Lemma index_in_range m row :
  0 ≤ row < rowCount m → index m row 0 = createIndex row 0.
Proof.
  intros [Hlo Hhi]. unfold index, hasIndex, columnCount.
  fold (rowCount m).
  destruct (row <? 0) eqn:H1; [lia|].
  destruct (row <? rowCount m) eqn:H2; [|lia].
  destruct (rowCount m =? 0) eqn:H3; [lia|]. reflexivity.
Qed.

Lemma index_out_of_range m row column :
  row < 0 ∨ rowCount m ≤ row → index m row column = QModelIndex.null.
Proof.
  intros Hrow. unfold index, hasIndex.
  destruct (row <? 0) eqn:H1; [done|].
  destruct (row <? rowCount m) eqn:H2; [lia|].
  by destruct (column <? 0).
Qed.

Lemma data_invalid m idx role :
  QModelIndex.isValid idx = false → data m idx role = Done Invalid.
Proof. intros Hidx. unfold data. by rewrite Hidx. Qed.

(** A display query at a valid index whose row holds [record]. *)
Lemma data_display m idx record :
  QModelIndex.isValid idx = true →
  threads m !! Z.to_nat (QModelIndex.row idx) = Some record →
  data m idx DisplayRole
  = if QJsonValue.isObject (QJsonObject.value record "data")
    then Done (VString (QJsonValue.toString
                          (QJsonObject.value
                             (QJsonValue.toObject (QJsonObject.value record "data"))
                             "title")))
    else Abort (ASSERT 85).
Proof.
  intros Hidx Hrecord. unfold data. rewrite Hidx. cbn [negb].
  assert (0 ≤ QModelIndex.row idx) as Hrow.
  { unfold QModelIndex.isValid in Hidx.
    apply andb_true_iff in Hidx as [Hidx _].
    apply andb_true_iff in Hidx as [Hidx _]. lia. }
  rewrite <- (Z2Nat.id _ Hrow) at 1.
  rewrite (at_lookup _ _ _ Hrecord). cbn.
  by destruct (QJsonValue.isObject (QJsonObject.value record "data")).
Qed.

(** C1, as the code has it. A completion without transport error whose
    body is a listing of [k > 0] objects, arriving at [N] records, returns
    with the [k] objects appended in their order. It emits
    [rowsAboutToBeInserted(N, N+k-1)] on the old records and then exactly
    one [rowsInserted(N, N+k-1)], delivered when all [k] records are in
    place. Afterwards the display query at row [N+j] returns the
    [data.title] of child [j] when the [data] of that child is an object,
    and fails the assertion of [data] (line 85) when it is not. *)
Theorem batch_inserted_then_notified
    (reply : QNetworkReply.t) (cs : QJsonArray) (m : RedditModel.t) :
  successful reply cs →
  cs ≠ [] →
  ∃ m', update_finished reply m = Done m'
        ∧ threads m' = threads m ++ (QJsonValue.toObject <$> cs)
        ∧ emitted m'
          = emitted m
            ++ [ {| signal := rowsAboutToBeInserted
                                (rowCount m) (rowCount m + size cs - 1);
                    seen := threads m |};
                 {| signal := rowsInserted (rowCount m) (rowCount m + size cs - 1);
                    seen := threads m ++ (QJsonValue.toObject <$> cs) |} ]
        ∧ ∀ (j : nat) (child : QJsonValue),
            cs !! j = Some child →
            data m' (index m' (rowCount m + Z.of_nat j) 0) DisplayRole
            = if has_data_object child
              then Done (VString (title child))
              else Abort (ASSERT 85).
Proof.
  intros Hok Hcs. exists (inserted cs m).
  assert ((size cs =? 0) = false) as Hsize.
  { apply Z.eqb_neq. by rewrite size_zero. }
  split; [by rewrite (update_finished_successful _ _ _ Hok), Hsize|].
  split; [done|]. split.
  { unfold inserted, rowCount. cbn.
    by replace (size cs + size (threads m) - 1)
         with (size (threads m) + size cs - 1) by lia. }
  intros j child Hchild.
  pose proof (lookup_lt_Some _ _ _ Hchild) as Hj.
  assert (threads (inserted cs m) !! (length (threads m) + j)%nat
          = Some (QJsonValue.toObject child)) as Hrecord.
  { cbn. rewrite lookup_app_r by lia.
    replace (length (threads m) + j - length (threads m))%nat with j by lia.
    by rewrite list_lookup_fmap, Hchild. }
  assert (rowCount m + Z.of_nat j = Z.of_nat (length (threads m) + j)) as Hrow.
  { unfold rowCount, size. lia. }
  rewrite index_in_range.
  2:{ unfold rowCount at 2 3. cbn. rewrite size_app. unfold rowCount, size.
      rewrite length_fmap. lia. }
  rewrite (data_display _ _ (QJsonValue.toObject child)).
  - reflexivity.
  - unfold QModelIndex.isValid, createIndex. cbn.
    pose proof (size_nonneg (threads m)). unfold rowCount.
    destruct (0 <=? size (threads m) + Z.of_nat j) eqn:H0; [done|lia].
  - cbn [createIndex QModelIndex.row]. by rewrite Hrow, Nat2Z.id.
Qed.

Lemma batch_inserted_then_notified_witness :
  ∃ m', update_finished (listing_reply [link "A"; link "B"; link "C"])
          (RedditModel.new_client "id") = Done m'
        ∧ threads m'
          = threads (RedditModel.new_client "id")
            ++ (QJsonValue.toObject <$> [link "A"; link "B"; link "C"])
        ∧ emitted m'
          = emitted (RedditModel.new_client "id")
            ++ [ {| signal := rowsAboutToBeInserted
                                (rowCount (RedditModel.new_client "id"))
                                (rowCount (RedditModel.new_client "id")
                                 + size [link "A"; link "B"; link "C"] - 1);
                    seen := threads (RedditModel.new_client "id") |};
                 {| signal := rowsInserted
                                (rowCount (RedditModel.new_client "id"))
                                (rowCount (RedditModel.new_client "id")
                                 + size [link "A"; link "B"; link "C"] - 1);
                    seen := threads (RedditModel.new_client "id")
                            ++ (QJsonValue.toObject
                                  <$> [link "A"; link "B"; link "C"]) |} ]
        ∧ ∀ (j : nat) (child : QJsonValue),
            [link "A"; link "B"; link "C"] !! j = Some child →
            data m' (index m' (rowCount (RedditModel.new_client "id") + Z.of_nat j) 0)
                 DisplayRole
            = if has_data_object child
              then Done (VString (title child))
              else Abort (ASSERT 85).
Proof.
  apply (batch_inserted_then_notified
           (listing_reply [link "A"; link "B"; link "C"])
           [link "A"; link "B"; link "C"] (RedditModel.new_client "id")).
  - split; [reflexivity|]. split; [reflexivity|].
    repeat constructor.
  - discriminate.
Defined.

(** The claim C1 fails where a child has no [data] object: the completion
    of a listing whose one child is the object with the single field
    [kind] is successful and inserts row 0, and the display query at row 0
    does not return a title but fails the assertion of line 85. *)
Lemma batch_titles_counterexample :
  successful (listing_reply [Object {["kind" := String "t3"]}])
             [Object {["kind" := String "t3"]}]
  ∧ ∃ m', update_finished (listing_reply [Object {["kind" := String "t3"]}])
            RedditModel.new = Done m'
          ∧ rowCount RedditModel.new = 0
          ∧ rowCount m' = 1
          ∧ data m' (index m' 0 0) DisplayRole = Abort (ASSERT 85)
          ∧ ∀ v : QVariant, data m' (index m' 0 0) DisplayRole ≠ Done v.
Proof.
  split.
  - split; [reflexivity|]. split; [reflexivity|]. repeat constructor.
  - eexists. split; [vm_compute; reflexivity|]. vm_compute. done.
Qed.

(** C10. A display query at a valid index whose row holds a record returns
    the title when the [data] field of the record is an object and fails
    the assertion of line 85 when it is not. The insertion does not
    establish that: any listing of objects is stored as it comes, whatever
    the objects hold, so a listing accepted by the handler can make the
    query of its rows fail. *)
Theorem display_needs_data_object :
  (∀ (m : RedditModel.t) (idx : QModelIndex.t) (record : QJsonObject),
     QModelIndex.isValid idx = true →
     threads m !! Z.to_nat (QModelIndex.row idx) = Some record →
     (QJsonValue.isObject (QJsonObject.value record "data") = true →
      data m idx DisplayRole = Done (VString (title (Object record))))
     ∧ (QJsonValue.isObject (QJsonObject.value record "data") = false →
        data m idx DisplayRole = Abort (ASSERT 85)))
  ∧ (∀ (m : RedditModel.t) (o : QJsonObject),
       ∃ m', update_finished (listing_reply [Object o]) m = Done m'
             ∧ threads m' = threads m ++ [o])
  ∧ (∃ (o : QJsonObject) (m' : RedditModel.t),
       update_finished (listing_reply [Object o]) RedditModel.new = Done m'
       ∧ QModelIndex.isValid (index m' 0 0) = true
       ∧ 0 ≤ QModelIndex.row (index m' 0 0) < rowCount m'
       ∧ data m' (index m' 0 0) DisplayRole = Abort (ASSERT 85)).
Proof.
  split; [|split].
  - intros m idx record Hidx Hrecord.
    rewrite (data_display _ _ _ Hidx Hrecord).
    split; intros ->; reflexivity.
  - intros m o. exists (inserted [Object o] m). split; [|done].
    rewrite (update_finished_successful _ [Object o]); [done|].
    split; [reflexivity|]. split; [|by repeat constructor].
    unfold listing_reply, listing, listing_children. cbn.
    rewrite lookup_insert_eq, lookup_insert_ne, lookup_insert_eq by done.
    by rewrite lookup_insert_eq.
  - exists {["kind" := String "t3"]}. eexists.
    split; [vm_compute; reflexivity|]. vm_compute.
    repeat split; done.
Qed.

(** ** Runs of the event loop *)

(** The steps other than a completion return and keep the records. *)
Lemma step_keeps_threads m e :
  (∀ reply, e ≠ Finished reply) →
  ∃ m1, step m e = Done m1 ∧ threads m1 = threads m.
Proof.
  intros He. destruct e as [s| | |reply].
  - eexists. split; [reflexivity|].
    destruct (RedditWrapper.is_Granted s); [rewrite authenticated_threads|];
      reflexivity.
  - by eexists.
  - by eexists.
  - by destruct (He reply).
Qed.

Lemma step_prefix m e m' :
  step m e = Done m' → threads m `prefix_of` threads m'.
Proof.
  destruct e as [s| | |reply].
  - destruct (step_keeps_threads m (StatusChanged s)) as (m1 & -> & Hm1); [done|].
    intros [= <-]. by rewrite Hm1.
  - by intros [= <-].
  - by intros [= <-].
  - apply update_finished_prefix.
Qed.

Lemma run_successful m es css :
  Forall2 successful (completions es) css →
  ∃ m', run m es = Done m'
        ∧ rowCount m' = rowCount m + foldr Z.add 0 (size <$> css).
Proof.
  revert m css. induction es as [|e es IH]; intros m css Hcss.
  - inversion Hcss; subst. exists m. cbn. split; [done|lia].
  - assert (∀ m1, step m e = Done m1 → threads m1 = threads m →
                  Forall2 successful (completions es) css →
                  ∃ m', run m (e :: es) = Done m'
                        ∧ rowCount m' = rowCount m + foldr Z.add 0 (size <$> css))
      as Hkeep.
    { intros m1 Hstep Hm1 Hes. cbn [run]. rewrite Hstep. cbn [mbind Run_bind].
      destruct (IH m1 css Hes) as (m' & Hrun & Hrows).
      exists m'. split; [exact Hrun|]. rewrite Hrows. unfold rowCount.
      by rewrite Hm1. }
    destruct e as [s| | |reply]; cbn [completions] in Hcss.
    + destruct (step_keeps_threads m (StatusChanged s)) as (m1 & ? & ?); [done|].
      by apply (Hkeep m1).
    + by apply (Hkeep (grant m)).
    + by apply (Hkeep (update m)).
    + inversion Hcss as [|? cs ? css' Hok Hrest]; subst.
      cbn [run step]. rewrite (update_finished_successful _ _ _ Hok).
      cbn [mbind Run_bind].
      destruct (IH (if size cs =? 0 then m else inserted cs m) css' Hrest)
        as (m' & Hrun & Hrows).
      exists m'. split; [exact Hrun|]. rewrite Hrows. cbn [fmap list_fmap foldr].
      destruct (size cs =? 0) eqn:Hsize.
      * apply Z.eqb_eq in Hsize. lia.
      * unfold rowCount, inserted. cbn. rewrite size_app. unfold size.
        rewrite length_fmap. lia.
Qed.

(** The completions of a prefix of a run are a prefix of its completions. *)
Lemma completions_take (n : nat) (es : list Event) :
  completions (take n es)
  = take (length (completions (take n es))) (completions es).
Proof.
  revert n. induction es as [|e es IH]; intros [|n]; try done.
  destruct e as [s| | |reply]; cbn [take completions length]; try apply IH.
  f_equal. apply IH.
Qed.

(** C3. From a model whose list is empty (both constructors create it
    empty), take a run whose completions are all successful, with children
    arrays [css]. Every prefix of the run ends, and [rowCount] is then the
    sum of the lengths of the arrays of the completions in the prefix: after
    the i-th completion it is the sum of the first i lengths. *)
Theorem rowCount_is_sum
    (m : RedditModel.t) (es : list Event) (css : list QJsonArray) :
  threads m = [] →
  Forall2 successful (completions es) css →
  ∀ n : nat,
    ∃ m', run m (take n es) = Done m'
          ∧ rowCount m'
            = foldr Z.add 0 (size <$> take (length (completions (take n es))) css).
Proof.
  intros Hempty Hcss n.
  destruct (run_successful m (take n es)
              (take (length (completions (take n es))) css)) as (m' & Hrun & Hrows).
  { rewrite completions_take at 1. by apply Forall2_take. }
  exists m'. split; [exact Hrun|]. rewrite Hrows. unfold rowCount.
  by rewrite Hempty.
Qed.

Lemma rowCount_is_sum_witness :
  ∃ m', run (RedditModel.new_client "id")
            (take 4 [ StatusChanged RedditWrapper.Granted;
                      Finished (listing_reply [link "A"; link "B"; link "C"]);
                      Update;
                      Finished (listing_reply [link "D"; link "E"]);
                      Update;
                      Finished (listing_reply []) ]) = Done m'
        ∧ rowCount m'
          = foldr Z.add 0
              (size <$> take (length (completions
                                (take 4 [ StatusChanged RedditWrapper.Granted;
                                          Finished (listing_reply
                                                      [link "A"; link "B"; link "C"]);
                                          Update;
                                          Finished (listing_reply
                                                      [link "D"; link "E"]);
                                          Update;
                                          Finished (listing_reply []) ])))
                          [ [link "A"; link "B"; link "C"];
                            [link "D"; link "E"]; [] ]).
Proof.
  apply (rowCount_is_sum (RedditModel.new_client "id")
           [ StatusChanged RedditWrapper.Granted;
             Finished (listing_reply [link "A"; link "B"; link "C"]);
             Update;
             Finished (listing_reply [link "D"; link "E"]);
             Update;
             Finished (listing_reply []) ]).
  - reflexivity.
  - repeat (constructor;
            [split; [reflexivity|]; split; [reflexivity|]; repeat constructor|]).
    constructor.
Defined.

(** C4. Whatever the model reacts to, when the step returns every record is
    where it was, and the records the step added lie behind the former end
    of the list. *)
Theorem records_append_only (m : RedditModel.t) (e : Event) (m' : RedditModel.t) :
  step m e = Done m' →
  (∀ (j : nat) (record : QJsonObject),
     threads m !! j = Some record → threads m' !! j = Some record)
  ∧ ∃ added : list QJsonObject,
      threads m' = threads m ++ added
      ∧ ∀ (i : nat) (record : QJsonObject),
          added !! i = Some record →
          threads m' !! (length (threads m) + i)%nat = Some record.
Proof.
  intros Hstep. destruct (step_prefix _ _ _ Hstep) as [added Hadded].
  split.
  - intros j record Hj. rewrite Hadded. by apply lookup_app_l_Some.
  - exists added. split; [done|]. intros i record Hi.
    rewrite Hadded, lookup_app_r by lia.
    by replace (length (threads m) + i - length (threads m))%nat with i by lia.
Qed.

Lemma records_append_only_witness :
  (∀ (j : nat) (record : QJsonObject),
     threads (inserted [link "A"] RedditModel.new) !! j = Some record →
     threads (inserted [link "B"; link "C"] (inserted [link "A"] RedditModel.new)) !! j
     = Some record)
  ∧ ∃ added : list QJsonObject,
      threads (inserted [link "B"; link "C"] (inserted [link "A"] RedditModel.new))
      = threads (inserted [link "A"] RedditModel.new) ++ added
      ∧ ∀ (i : nat) (record : QJsonObject),
          added !! i = Some record →
          threads (inserted [link "B"; link "C"] (inserted [link "A"] RedditModel.new))
            !! (length (threads (inserted [link "A"] RedditModel.new)) + i)%nat
          = Some record.
Proof.
  apply (records_append_only (inserted [link "A"] RedditModel.new)
           (Finished (listing_reply [link "B"; link "C"]))).
  vm_compute. reflexivity.
Defined.

(** ** Queries the model does not answer with a title *)

(** C5. A cell is read as [data] at the index that the model's own [index]
    builds for its row. For every row that is negative or not below
    [rowCount], in any column and for any role, the display role included,
    that query answers with the invalid variant and does not fail: no
    assertion, no access to the list. The same holds of [data] at every
    index that is not valid, such as one with a negative row, and, for a
    role other than the display role, at every index. *)
Theorem data_absent_for_invalid_index (m : RedditModel.t) :
  (∀ (row column role : Z),
     row < 0 ∨ rowCount m ≤ row →
     data m (index m row column) role = Done Invalid)
  ∧ (∀ (idx : QModelIndex.t) (role : Z),
       QModelIndex.isValid idx = false → data m idx role = Done Invalid)
  ∧ (∀ (idx : QModelIndex.t) (role : Z),
       QModelIndex.row idx < 0 → data m idx role = Done Invalid)
  ∧ (∀ (idx : QModelIndex.t) (role : Z),
       role ≠ DisplayRole → data m idx role = Done Invalid).
Proof.
  repeat split.
  - intros row column role Hrow. rewrite index_out_of_range by done.
    by apply data_invalid.
  - intros idx role. apply data_invalid.
  - intros idx role Hrow. apply data_invalid. unfold QModelIndex.isValid.
    destruct (0 <=? QModelIndex.row idx) eqn:H0; [lia|done].
  - intros idx role Hrole. unfold data.
    destruct (QModelIndex.isValid idx); cbn [negb]; [|done].
    destruct (role =? DisplayRole) eqn:H0; [lia|done].
Qed.

(** ** Requests *)

(** C9, as the code has it. [update] has no check of the session: every
    call hands one GET of the hot listing to the wrapper, whatever the
    status of the flow, and leaves the records and the emitted signals as
    they are. The model constructed without a client identifier makes no
    connection from [authenticated], so a model without connections issues
    no request when the flow reports a status. *)
Theorem update_always_requests (m : RedditModel.t) :
  step m Update = Done (update m)
  ∧ RedditWrapper.requests (redditWrapper (update m))
    = RedditWrapper.requests (redditWrapper m) ++ [hotUrl]
  ∧ threads (update m) = threads m
  ∧ emitted (update m) = emitted m
  ∧ connections RedditModel.new = 0%nat
  ∧ (connections m = 0%nat →
     ∀ s : RedditWrapper.Status,
       ∃ m1, step m (StatusChanged s) = Done m1
             ∧ RedditWrapper.requests (redditWrapper m1)
               = RedditWrapper.requests (redditWrapper m)
             ∧ threads m1 = threads m).
Proof.
  repeat split.
  intros Hnone s. eexists. split; [reflexivity|].
  unfold authenticated. cbn. rewrite Hnone.
  by destruct (RedditWrapper.is_Granted s).
Qed.

(** The claim C9 fails on the model constructed without a client
    identifier: its session is not authenticated and it has sent nothing,
    and a call of [update] sends the GET of the hot listing. *)
Lemma update_unauthenticated_counterexample :
  RedditWrapper.status (redditWrapper RedditModel.new) = RedditWrapper.NotAuthenticated
  ∧ RedditWrapper.requests (redditWrapper RedditModel.new) = []
  ∧ ∃ m', step RedditModel.new Update = Done m'
          ∧ RedditWrapper.requests (redditWrapper m') = [hotUrl]
          ∧ m' ≠ RedditModel.new.
Proof.
  split; [reflexivity|]. split; [reflexivity|].
  eexists. split; [reflexivity|]. split; [reflexivity|]. discriminate.
Qed.

(** ** The scenario of the listing with titles A, B, C and then D, E *)

Example scenario :
  rowCount RedditModel.new = 0 ∧ columnCount RedditModel.new = 0
  ∧ ∃ m1 m2 m3,
      step (RedditModel.new_client "id") (StatusChanged RedditWrapper.Granted) = Done m1
      ∧ RedditWrapper.requests (redditWrapper m1) = [hotUrl]
      ∧ step m1 (Finished (listing_reply [link "A"; link "B"; link "C"])) = Done m2
      ∧ rowCount m2 = 3
      ∧ data m2 (index m2 0 0) DisplayRole = Done (VString "A")
      ∧ data m2 (index m2 2 0) DisplayRole = Done (VString "C")
      ∧ signal <$> emitted m2 = [rowsAboutToBeInserted 0 2; rowsInserted 0 2]
      ∧ run m2 [Update; Finished (listing_reply [link "D"; link "E"])] = Done m3
      ∧ rowCount m3 = 5
      ∧ data m3 (index m3 4 0) DisplayRole = Done (VString "E")
      ∧ signal <$> emitted m3
        = [ rowsAboutToBeInserted 0 2; rowsInserted 0 2;
            rowsAboutToBeInserted 3 4; rowsInserted 3 4 ].
Proof.
  split; [reflexivity|]. split; [reflexivity|].
  do 3 eexists.
  split; [reflexivity|]. split; [reflexivity|].
  split; [vm_compute; reflexivity|]. split; [reflexivity|].
  split; [vm_compute; reflexivity|]. split; [vm_compute; reflexivity|].
  split; [reflexivity|]. split; [vm_compute; reflexivity|].
  split; [reflexivity|]. split; [vm_compute; reflexivity|]. reflexivity.
Qed.

(** * Further properties of the two files *)

(** ** What a completion does to the model *)

Lemma listing_children_of d cs :
  listing_children d = Some cs → children_of d = Some (Array cs).
Proof.
  unfold listing_children, children_of, data_of.
  destruct d as [| |root]; try done.
  destruct (root !! "kind") as [[| | |kind| | |]|]; try done.
  destruct (root !! "data") as [[| | | | |data|]|]; try done.
  destruct (data !! "children") as [[| | | |children| |]|]; try done.
  destruct (String.eqb kind "Listing"); [|done]. by intros [= ->].
Qed.

Lemma well_shaped_successful reply :
  QNetworkReply.error reply = QNetworkReply.NoError →
  well_shaped (QNetworkReply.body reply) = true →
  successful reply (batch reply).
Proof.
  intros Herr Hshape.
  destruct (well_shaped_listing _ Hshape) as (cs & Hcs & Hall).
  unfold batch. rewrite Herr, (listing_children_of _ _ Hcs). cbn.
  by repeat split.
Qed.

Lemma update_finished_ill_shaped reply m :
  QNetworkReply.error reply = QNetworkReply.NoError →
  well_shaped (QNetworkReply.body reply) = false →
  aborted (update_finished reply m) = true.
Proof.
  intros Herr Hshape. rewrite (update_finished_NoError _ _ Herr). cbv zeta.
  set (d := QNetworkReply.body reply) in *. unfold well_shaped in Hshape.
  destruct (root_is_object d); cbn in *; [|done].
  destruct (kind_is_Listing d); cbn in *; [|done].
  destruct (data_is_object d); cbn in *; [|done].
  destruct (children_is_array d); cbn in *; [|done].
  unfold every_child_is_object in Hshape.
  destruct (children_of d) as [[| | | |cs| |]|]; try done. cbn.
  destruct cs as [|c cs]; [done|].
  assert ((size (c :: cs) =? 0) = false) as ->.
  { apply Z.eqb_neq. unfold size. cbn [length]. lia. }
  rewrite beginInsertRows_at_end by (unfold size; cbn [length]; lia).
  cbn [mbind Run_bind]. by rewrite for_each_append_child_abort.
Qed.

(** The model that a completion leaves when it returns. *)
Lemma update_finished_Done reply m m' :
  update_finished reply m = Done m' →
  m' = (if failed reply then emit (error (QNetworkReply.errorString reply)) m
        else if size (batch reply) =? 0 then m
        else inserted (batch reply) m).
Proof.
  unfold failed. destruct (QNetworkReply.error reply) eqn:Herr; cbn.
  - destruct (well_shaped (QNetworkReply.body reply)) eqn:Hshape.
    + rewrite (update_finished_successful _ _ m
                 (well_shaped_successful _ Herr Hshape)).
      by intros [= <-].
    + pose proof (update_finished_ill_shaped _ m Herr Hshape) as Habort.
      intros Hdone. by rewrite Hdone in Habort.
  - rewrite update_finished_error by (by rewrite Herr). by intros [= <-].
Qed.

(** X1. A completion that returns has done one of three things and nothing
    else: emitted [error] with the error string of the reply; nothing at
    all; or inserted its whole batch between the two signals of the
    insertion. In each case the wrapper, the connections and the stack of
    open insertions are the ones before. *)
Theorem completion_effects
    (reply : QNetworkReply.t) (m m' : RedditModel.t) :
  update_finished reply m = Done m' →
  m' = (if failed reply then emit (error (QNetworkReply.errorString reply)) m
        else if size (batch reply) =? 0 then m
        else inserted (batch reply) m)
  ∧ redditWrapper m' = redditWrapper m
  ∧ connections m' = connections m
  ∧ changes m' = changes m.
Proof.
  intros Hdone. apply update_finished_Done in Hdone as ->.
  split; [done|].
  destruct (failed reply); [done|]. by destruct (size (batch reply) =? 0).
Qed.

Lemma completion_effects_witness :
  inserted [link "B"] (inserted [link "A"] RedditModel.new)
  = (if failed (listing_reply [link "B"])
     then emit (error (QNetworkReply.errorString (listing_reply [link "B"])))
               (inserted [link "A"] RedditModel.new)
     else if size (batch (listing_reply [link "B"])) =? 0
          then inserted [link "A"] RedditModel.new
          else inserted (batch (listing_reply [link "B"]))
                        (inserted [link "A"] RedditModel.new))
  ∧ redditWrapper (inserted [link "B"] (inserted [link "A"] RedditModel.new))
    = redditWrapper (inserted [link "A"] RedditModel.new)
  ∧ connections (inserted [link "B"] (inserted [link "A"] RedditModel.new))
    = connections (inserted [link "A"] RedditModel.new)
  ∧ changes (inserted [link "B"] (inserted [link "A"] RedditModel.new))
    = changes (inserted [link "A"] RedditModel.new).
Proof.
  apply (completion_effects (listing_reply [link "B"])
           (inserted [link "A"] RedditModel.new)).
  vm_compute. reflexivity.
Defined.

(** ** Runs, step by step *)

Lemma run_app m es1 es2 :
  run m (es1 ++ es2) = (m1 ← run m es1; run m1 es2).
Proof.
  revert m. induction es1 as [|e es1 IH]; intros m; [done|].
  cbn [app run]. destruct (step m e) as [m1|]; cbn; [apply IH|done].
Qed.

(** A relation that is reflexive and transitive and holds across every
    step that returns holds across every run that returns. *)
Lemma run_related (R : RedditModel.t → RedditModel.t → Prop) :
  (∀ m, R m m) →
  (∀ m1 m2 m3, R m1 m2 → R m2 m3 → R m1 m3) →
  (∀ m e m', step m e = Done m' → R m m') →
  ∀ m es m', run m es = Done m' → R m m'.
Proof.
  intros Hrefl Htrans Hstep m es. revert m.
  induction es as [|e es IH]; intros m m'; cbn [run].
  - intros [= <-]. apply Hrefl.
  - destruct (step m e) as [m1|] eqn:He; cbn; [|done].
    intros Hrun. eapply Htrans; [by eapply Hstep|by apply IH].
Qed.

Lemma iter_update n m :
  Nat.iter n update m
  = set_redditWrapper (Nat.iter n RedditWrapper.requestHotThreads) m.
Proof.
  induction n as [|n IH]; [by destruct m|].
  rewrite Nat.iter_succ, IH. reflexivity.
Qed.

Lemma iter_requestHotThreads n w :
  Nat.iter n RedditWrapper.requestHotThreads w
  = RedditWrapper.mk (RedditWrapper.clientIdentifier w) (RedditWrapper.status w)
      (RedditWrapper.permanent w) (RedditWrapper.grants w)
      (RedditWrapper.requests w ++ replicate n hotUrl).
Proof.
  induction n as [|n IH].
  - cbn. rewrite app_nil_r. by destruct w.
  - rewrite Nat.iter_succ, IH. unfold RedditWrapper.requestHotThreads. cbn.
    rewrite <- app_assoc. do 2 f_equal.
    change (replicate n hotUrl ++ [hotUrl] = replicate (S n) hotUrl).
    by rewrite replicate_S_end.
Qed.

(** The step of a status report, spelled out. *)
Lemma step_StatusChanged m s :
  step m (StatusChanged s)
  = Done (RedditModel.mk (threads m)
            (RedditWrapper.mk
               (RedditWrapper.clientIdentifier (redditWrapper m)) s
               (RedditWrapper.permanent (redditWrapper m))
               (RedditWrapper.grants (redditWrapper m))
               (RedditWrapper.requests (redditWrapper m)
                ++ (if RedditWrapper.is_Granted s
                    then replicate (connections m) hotUrl else [])))
            (connections m) (changes m) (emitted m)).
Proof.
  unfold step, RedditWrapper.statusChanged. cbv beta iota zeta. f_equal.
  destruct (RedditWrapper.is_Granted s).
  - unfold authenticated. rewrite iter_update. unfold set_redditWrapper.
    cbn [threads redditWrapper connections changes emitted].
    by rewrite iter_requestHotThreads.
  - unfold set_redditWrapper. cbn. by rewrite app_nil_r.
Qed.

Lemma at_prefix {A} (l l' : list A) (i : Z) (x : A) :
  l `prefix_of` l' → at_ l i = Done x → at_ l' i = Done x.
Proof.
  intros [k ->] Hat. unfold at_, Q_ASSERT_X in Hat.
  destruct ((0 <=? i) && (i <? size l)) eqn:Hi; [|done]. cbn in Hat.
  destruct (l !! Z.to_nat i) as [y|] eqn:Hy; [|done]. injection Hat as ->.
  apply andb_true_iff in Hi as [Hlo _].
  rewrite <- (Z2Nat.id i) by lia. apply at_lookup.
  by apply lookup_app_l_Some.
Qed.

Lemma run_prefix m es m' :
  run m es = Done m' → threads m `prefix_of` threads m'.
Proof.
  apply (run_related (λ a b, threads a `prefix_of` threads b)).
  - done.
  - intros m1 m2 m3 H12 H23. by etrans.
  - apply step_prefix.
Qed.

(** X2. Over a whole run that returns, the records only grow at the end:
    the list the run starts with is a prefix of the list it ends with, and
    neither [rowCount] nor [columnCount] goes down. *)
Theorem run_only_appends (m : RedditModel.t) (es : list Event) (m' : RedditModel.t) :
  run m es = Done m' →
  threads m `prefix_of` threads m'
  ∧ rowCount m ≤ rowCount m'
  ∧ columnCount m ≤ columnCount m'.
Proof.
  intros Hrun. destruct (run_prefix _ _ _ Hrun) as [added Hadded].
  split; [by exists added|].
  assert (rowCount m ≤ rowCount m') as Hrows.
  { unfold rowCount. rewrite Hadded, size_app. pose proof (size_nonneg added). lia. }
  split; [done|]. unfold columnCount. fold (rowCount m) (rowCount m').
  pose proof (size_nonneg (threads m)). unfold rowCount in *.
  destruct (size (threads m) =? 0) eqn:H1, (size (threads m') =? 0) eqn:H2;
    cbn; lia.
Qed.

Lemma run_only_appends_witness :
  threads (inserted [link "A"] RedditModel.new)
    `prefix_of` threads (inserted [link "B"] (update (inserted [link "A"] RedditModel.new)))
  ∧ rowCount (inserted [link "A"] RedditModel.new)
    ≤ rowCount (inserted [link "B"] (update (inserted [link "A"] RedditModel.new)))
  ∧ columnCount (inserted [link "A"] RedditModel.new)
    ≤ columnCount (inserted [link "B"] (update (inserted [link "A"] RedditModel.new))).
Proof.
  apply (run_only_appends (inserted [link "A"] RedditModel.new)
           [Update; Finished (listing_reply [link "B"])]).
  vm_compute. reflexivity.
Defined.

(** X3. What a cell has answered once it answers after every run that
    returns: a title stays the title, at the same index, and the absent
    value of an invalid index or of another role stays absent. A row whose
    record has no [data] object fails the assertion of line 85 for good: no
    run repairs it. *)
Theorem answers_are_stable
    (m : RedditModel.t) (es : list Event) (m' : RedditModel.t)
    (idx : QModelIndex.t) (role : Z) :
  run m es = Done m' →
  (∀ v : QVariant, data m idx role = Done v → data m' idx role = Done v)
  ∧ (data m idx role = Abort (ASSERT 85) → data m' idx role = Abort (ASSERT 85)).
Proof.
  intros Hrun. pose proof (run_prefix _ _ _ Hrun) as Hprefix.
  unfold data. destruct (QModelIndex.isValid idx); cbn [negb]; [|done].
  destruct (role =? DisplayRole); [|done].
  destruct (at_ (threads m) (QModelIndex.row idx)) as [record|f] eqn:Hat.
  - rewrite (at_prefix _ _ _ _ Hprefix Hat). done.
  - cbn. split; [done|]. intros [= ->].
    unfold at_, Q_ASSERT_X in Hat.
    destruct (_ && _) in Hat; cbn in Hat; [|done].
    by destruct (threads m !! _) in Hat.
Qed.

Lemma answers_are_stable_witness :
  (∀ v : QVariant,
     data (inserted [link "A"] RedditModel.new) (createIndex 0 0) DisplayRole = Done v →
     data (inserted [link "B"] (update (inserted [link "A"] RedditModel.new)))
          (createIndex 0 0) DisplayRole = Done v)
  ∧ (data (inserted [link "A"] RedditModel.new) (createIndex 0 0) DisplayRole
     = Abort (ASSERT 85) →
     data (inserted [link "B"] (update (inserted [link "A"] RedditModel.new)))
          (createIndex 0 0) DisplayRole = Abort (ASSERT 85)).
Proof.
  apply (answers_are_stable (inserted [link "A"] RedditModel.new)
           [Update; Finished (listing_reply [link "B"])]).
  vm_compute. reflexivity.
Defined.

(** X4. A run that returns leaves no insertion open: the stack of
    insertions begun and not ended is the one the run started with, so it
    is empty between the events of a model that was constructed. The run
    changes neither the client identifier nor the permanent flag of the
    wrapper. *)
Theorem run_leaves_nothing_open
    (m : RedditModel.t) (es : list Event) (m' : RedditModel.t) :
  run m es = Done m' →
  changes m' = changes m
  ∧ RedditWrapper.clientIdentifier (redditWrapper m')
    = RedditWrapper.clientIdentifier (redditWrapper m)
  ∧ RedditWrapper.permanent (redditWrapper m')
    = RedditWrapper.permanent (redditWrapper m).
Proof.
  apply (run_related
           (λ a b, changes b = changes a
                   ∧ RedditWrapper.clientIdentifier (redditWrapper b)
                     = RedditWrapper.clientIdentifier (redditWrapper a)
                   ∧ RedditWrapper.permanent (redditWrapper b)
                     = RedditWrapper.permanent (redditWrapper a))).
  - done.
  - intros m1 m2 m3 (? & ? & ?) (? & ? & ?). repeat split; congruence.
  - intros m0 e m1. destruct e as [s| | |reply].
    + rewrite step_StatusChanged. by intros [= <-].
    + by intros [= <-].
    + by intros [= <-].
    + intros Hdone. apply update_finished_Done in Hdone as ->.
      destruct (failed reply); [done|]. by destruct (size (batch reply) =? 0).
Qed.

Lemma run_leaves_nothing_open_witness :
  ∃ m', run (RedditModel.new_client "id")
            [ StatusChanged RedditWrapper.Granted;
              Finished (listing_reply [link "A"; link "B"]) ] = Done m'
        ∧ changes m' = changes (RedditModel.new_client "id")
        ∧ RedditWrapper.clientIdentifier (redditWrapper m')
          = RedditWrapper.clientIdentifier (redditWrapper (RedditModel.new_client "id"))
        ∧ RedditWrapper.permanent (redditWrapper m')
          = RedditWrapper.permanent (redditWrapper (RedditModel.new_client "id")).
Proof.
  eexists. split; [vm_compute; reflexivity|].
  apply (run_leaves_nothing_open (RedditModel.new_client "id")
           [ StatusChanged RedditWrapper.Granted;
             Finished (listing_reply [link "A"; link "B"]) ]).
  vm_compute. reflexivity.
Defined.

(** ** Requests *)

Lemma run_Grants k m :
  run m (replicate k Grant) = Done (Nat.iter k grant m).
Proof.
  revert m. induction k as [|k IH]; intros m; [done|].
  cbn [replicate run step mbind Run_bind]. rewrite IH.
  by rewrite Nat.iter_succ_r.
Qed.

Lemma iter_grant k m :
  Nat.iter k grant m
  = RedditModel.mk (threads m)
      (RedditWrapper.mk (RedditWrapper.clientIdentifier (redditWrapper m))
         (RedditWrapper.status (redditWrapper m))
         (RedditWrapper.permanent (redditWrapper m))
         (k + RedditWrapper.grants (redditWrapper m))%nat
         (RedditWrapper.requests (redditWrapper m)))
      (k + connections m)%nat (changes m) (emitted m).
Proof.
  induction k as [|k IH]; [by destruct m as [? [] ? ? ?]|].
  rewrite Nat.iter_succ, IH. reflexivity.
Qed.

(** X5. Every call of [grant] adds a connection from [authenticated] to
    [update], and a status report fires them all: after [k] further calls
    of [grant], the report of [Granted] sends one GET of the hot listing per
    connection, [connections + k] of them, and the report of any other
    status sends none. Neither touches the records or emits a signal. *)
Theorem grant_multiplies_requests
    (m : RedditModel.t) (k : nat) (s : RedditWrapper.Status) :
  ∃ m', run m (replicate k Grant ++ [StatusChanged s]) = Done m'
        ∧ RedditWrapper.requests (redditWrapper m')
          = RedditWrapper.requests (redditWrapper m)
            ++ (if RedditWrapper.is_Granted s
                then replicate (connections m + k) hotUrl else [])
        ∧ connections m' = (connections m + k)%nat
        ∧ RedditWrapper.grants (redditWrapper m')
          = (RedditWrapper.grants (redditWrapper m) + k)%nat
        ∧ RedditWrapper.status (redditWrapper m') = s
        ∧ threads m' = threads m
        ∧ emitted m' = emitted m.
Proof.
  eexists. split.
  { rewrite run_app, run_Grants. cbn [mbind Run_bind run].
    rewrite step_StatusChanged. reflexivity. }
  rewrite iter_grant. cbn.
  replace (k + connections m)%nat with (connections m + k)%nat by lia.
  replace (k + RedditWrapper.grants (redditWrapper m))%nat
    with (RedditWrapper.grants (redditWrapper m) + k)%nat by lia.
  done.
Qed.

(** X6. The model asks for nothing but the hot listing and takes no request
    back: over a run that returns, the requests of the wrapper grow by some
    number of GETs of [hotUrl]; the address of the live thread is never
    among them. *)
Theorem run_requests_hot_only
    (m : RedditModel.t) (es : list Event) (m' : RedditModel.t) :
  run m es = Done m' →
  ∃ n : nat,
    RedditWrapper.requests (redditWrapper m')
    = RedditWrapper.requests (redditWrapper m) ++ replicate n hotUrl
    ∧ liveThreadsUrl ∉ replicate n hotUrl.
Proof.
  intros Hrun.
  assert (∃ n, RedditWrapper.requests (redditWrapper m')
               = RedditWrapper.requests (redditWrapper m) ++ replicate n hotUrl)
    as [n Hn].
  { revert Hrun.
    apply (run_related
             (λ a b, ∃ n, RedditWrapper.requests (redditWrapper b)
                          = RedditWrapper.requests (redditWrapper a)
                            ++ replicate n hotUrl)).
    - intros m0. exists 0%nat. cbn. by rewrite app_nil_r.
    - intros m1 m2 m3 [n1 H1] [n2 H2]. exists (n1 + n2)%nat.
      by rewrite H2, H1, <- app_assoc, replicate_add.
    - intros m0 e m1. destruct e as [s| | |reply].
      + rewrite step_StatusChanged. intros [= <-]. cbn.
        destruct (RedditWrapper.is_Granted s); [by eexists|].
        exists 0%nat. done.
      + intros [= <-]. exists 0%nat. cbn. by rewrite app_nil_r.
      + intros [= <-]. by exists 1%nat.
      + intros Hdone. apply update_finished_Done in Hdone as ->.
        exists 0%nat. cbn. rewrite app_nil_r.
        destruct (failed reply); [done|]. by destruct (size (batch reply) =? 0). }
  exists n. split; [done|]. intros Hin. by apply elem_of_replicate in Hin as [? _].
Qed.

Lemma run_requests_hot_only_witness :
  ∃ n : nat,
    RedditWrapper.requests
      (redditWrapper (inserted [link "A"] (update (update RedditModel.new))))
    = RedditWrapper.requests (redditWrapper RedditModel.new) ++ replicate n hotUrl
    ∧ liveThreadsUrl ∉ replicate n hotUrl.
Proof.
  apply (run_requests_hot_only RedditModel.new
           [Update; Update; Finished (listing_reply [link "A"])]).
  vm_compute. reflexivity.
Defined.

(** ** Counting over runs with failed completions *)

(** X7. Over any run that returns, whatever its completions,
    [rowCount] grows by the lengths of the children arrays of the
    completions without transport error, and by nothing for the others. *)
Theorem run_rowCount
    (m : RedditModel.t) (es : list Event) (m' : RedditModel.t) :
  run m es = Done m' →
  rowCount m' = rowCount m + foldr Z.add 0 (size <$> (batch <$> completions es)).
Proof.
  revert m. induction es as [|e es IH]; intros m; cbn [run].
  - intros [= <-]. cbn. lia.
  - destruct (step m e) as [m1|] eqn:Hstep; cbn [mbind Run_bind]; [|done].
    intros Hrun. rewrite (IH _ Hrun).
    destruct e as [s| | |reply].
    + change (completions (StatusChanged s :: es)) with (completions es).
      rewrite step_StatusChanged in Hstep. by injection Hstep as <-.
    + change (completions (Grant :: es)) with (completions es).
      by injection Hstep as <-.
    + change (completions (Update :: es)) with (completions es).
      by injection Hstep as <-.
    + assert (foldr Z.add 0 (size <$> (batch <$> completions (Finished reply :: es)))
              = size (batch reply)
                + foldr Z.add 0 (size <$> (batch <$> completions es))) as ->
        by reflexivity.
      cbn in Hstep. apply update_finished_Done in Hstep as ->.
      assert (failed reply = true → size (batch reply) = 0) as Hfailed.
      { unfold failed, batch.
        by destruct (QNetworkReply.is_NoError (QNetworkReply.error reply)). }
      unfold rowCount. destruct (failed reply).
      * cbn [threads emit]. rewrite Hfailed by done. lia.
      * destruct (size (batch reply) =? 0) eqn:Hsize.
        -- apply Z.eqb_eq in Hsize. rewrite Hsize. lia.
        -- cbn [threads inserted]. rewrite size_app.
           assert (size (QJsonValue.toObject <$> batch reply) = size (batch reply))
             as -> by (unfold size; by rewrite length_fmap).
           lia.
Qed.

Lemma run_rowCount_witness :
  rowCount (inserted [link "B"; link "C"]
              (emit (error "Host not found") (inserted [link "A"] RedditModel.new)))
  = rowCount RedditModel.new
    + foldr Z.add 0
        (size <$> (batch <$> completions
                     [ Finished (listing_reply [link "A"]);
                       Finished (QNetworkReply.mk (QNetworkReply.Error 3)
                                   "Host not found" (listing [link "Z"]));
                       Finished (listing_reply [link "B"; link "C"]) ])).
Proof.
  apply (run_rowCount RedditModel.new
           [ Finished (listing_reply [link "A"]);
             Finished (QNetworkReply.mk (QNetworkReply.Error 3)
                         "Host not found" (listing [link "Z"]));
             Finished (listing_reply [link "B"; link "C"]) ]).
  vm_compute. reflexivity.
Defined.

Lemma errors_app l k : errors (l ++ k) = errors l ++ errors k.
Proof. unfold errors. apply omap_app. Qed.

Lemma rows_inserted_app l k :
  rows_inserted (l ++ k) = rows_inserted l ++ rows_inserted k.
Proof. unfold rows_inserted. apply omap_app. Qed.

(** X8. Over any run that returns, the [error] signals emitted are, in
    their order, the error strings of the completions with a transport
    error: one signal for each, none for anything else. *)
Theorem run_errors
    (m : RedditModel.t) (es : list Event) (m' : RedditModel.t) :
  run m es = Done m' →
  errors (emitted m')
  = errors (emitted m)
    ++ (QNetworkReply.errorString <$> List.filter failed (completions es)).
Proof.
  revert m. induction es as [|e es IH]; intros m; cbn [run].
  - intros [= <-]. cbn. by rewrite app_nil_r.
  - destruct (step m e) as [m1|] eqn:Hstep; cbn [mbind Run_bind]; [|done].
    intros Hrun. rewrite (IH _ Hrun).
    destruct e as [s| | |reply]; cbn [completions List.filter].
    + rewrite step_StatusChanged in Hstep. by injection Hstep as <-.
    + by injection Hstep as <-.
    + by injection Hstep as <-.
    + cbn in Hstep. apply update_finished_Done in Hstep as ->.
      destruct (failed reply).
      * cbn [emitted emit]. rewrite errors_app. cbn. by rewrite <- app_assoc.
      * destruct (size (batch reply) =? 0); [done|].
        cbn [emitted inserted]. rewrite errors_app. cbn.
        by rewrite app_nil_r.
Qed.

Lemma run_errors_witness :
  errors (emitted (inserted [link "B"]
                     (emit (error "Host not found")
                           (inserted [link "A"] RedditModel.new))))
  = errors (emitted RedditModel.new)
    ++ (QNetworkReply.errorString
          <$> List.filter failed
                (completions
                   [ Finished (listing_reply [link "A"]);
                     Finished (QNetworkReply.mk (QNetworkReply.Error 3)
                                 "Host not found" NullDocument);
                     Finished (listing_reply [link "B"]) ])).
Proof.
  apply (run_errors RedditModel.new
           [ Finished (listing_reply [link "A"]);
             Finished (QNetworkReply.mk (QNetworkReply.Error 3)
                         "Host not found" NullDocument);
             Finished (listing_reply [link "B"]) ]).
  vm_compute. reflexivity.
Defined.

(** ** What the observers of the signals are told *)

Lemma tiles_app start ranges ranges' :
  tiles start (ranges ++ ranges') = (tiles start ranges ≫= λ next, tiles next ranges').
Proof.
  revert start. induction ranges as [|[first last] ranges IH]; intros start; [done|].
  cbn [app tiles]. destruct ((first =? start) && (first <=? last)); [apply IH|done].
Qed.

(** X9. The [rowsInserted] signals account for every row once: when the
    ranges notified so far follow one another from [start] up to
    [rowCount], so they do after any run that returns. For a model that was
    just constructed they tile the rows from 0 to [rowCount - 1]. *)
Theorem notified_ranges_tile
    (start : Z) (m : RedditModel.t) (es : list Event) (m' : RedditModel.t) :
  tiles start (rows_inserted (emitted m)) = Some (rowCount m) →
  run m es = Done m' →
  tiles start (rows_inserted (emitted m')) = Some (rowCount m').
Proof.
  intros Hm Hrun. revert Hm. revert m es m' Hrun.
  apply (run_related
           (λ a b, tiles start (rows_inserted (emitted a)) = Some (rowCount a) →
                   tiles start (rows_inserted (emitted b)) = Some (rowCount b))).
  - done.
  - intros m1 m2 m3 H12 H23 H1. auto.
  - intros m e m1. destruct e as [s| | |reply].
    + rewrite step_StatusChanged. by intros [= <-].
    + by intros [= <-].
    + by intros [= <-].
    + intros Hdone Hm. apply update_finished_Done in Hdone as ->.
      destruct (failed reply).
      { cbn [emitted emit]. rewrite rows_inserted_app. cbn. by rewrite app_nil_r. }
      destruct (size (batch reply) =? 0) eqn:Hsize; [done|].
      apply Z.eqb_neq in Hsize. pose proof (size_nonneg (batch reply)).
      cbn [emitted inserted]. rewrite rows_inserted_app, tiles_app, Hm.
      cbn. unfold rowCount.
      destruct (size (threads m) =? size (threads m)) eqn:H1; [|lia].
      destruct (size (threads m) <=? size (batch reply) + size (threads m) - 1)
        eqn:H2; [|lia].
      cbn. f_equal. rewrite size_app. unfold size. rewrite length_fmap. lia.
Qed.

Lemma notified_ranges_tile_witness :
  ∃ m', run (RedditModel.new_client "id")
            [ StatusChanged RedditWrapper.Granted;
              Finished (listing_reply [link "A"; link "B"; link "C"]);
              Update;
              Finished (listing_reply [link "D"; link "E"]) ] = Done m'
        ∧ rows_inserted (emitted m') = [(0, 2); (3, 4)]
        ∧ tiles 0 (rows_inserted (emitted m')) = Some (rowCount m').
Proof.
  eexists. split; [vm_compute; reflexivity|]. split; [vm_compute; reflexivity|].
  apply (notified_ranges_tile 0 (RedditModel.new_client "id")
           [ StatusChanged RedditWrapper.Granted;
             Finished (listing_reply [link "A"; link "B"; link "C"]);
             Update;
             Finished (listing_reply [link "D"; link "E"]) ]).
  - reflexivity.
  - vm_compute. reflexivity.
Defined.

Lemma agrees_prefix final final' e :
  final `prefix_of` final' → agrees final e → agrees final' e.
Proof. intros Hpre [Hseen Hrange]. split; [by etrans|done]. Qed.

(** X10. No observer is ever shown something the model takes back. When
    every emission so far agrees with the records, so does every emission
    after any run that returns: what was seen while a signal was delivered
    is a prefix of the final records, [rowsAboutToBeInserted(first, last)]
    was delivered on exactly [first] records and [rowsInserted(first, last)]
    on exactly [last + 1]. *)
Theorem emissions_agree
    (m : RedditModel.t) (es : list Event) (m' : RedditModel.t) :
  Forall (agrees (threads m)) (emitted m) →
  run m es = Done m' →
  Forall (agrees (threads m')) (emitted m').
Proof.
  intros Hm Hrun. revert Hm. revert m es m' Hrun.
  apply (run_related
           (λ a b, Forall (agrees (threads a)) (emitted a) →
                   Forall (agrees (threads b)) (emitted b))).
  - done.
  - intros m1 m2 m3 H12 H23 H1. auto.
  - intros m e m1. destruct e as [s| | |reply].
    + rewrite step_StatusChanged. by intros [= <-].
    + by intros [= <-].
    + by intros [= <-].
    + intros Hdone Hm. apply update_finished_Done in Hdone as ->.
      destruct (failed reply).
      { cbn [emitted emit threads]. apply Forall_app. split; [done|].
        apply Forall_singleton. by split. }
      destruct (size (batch reply) =? 0) eqn:Hsize; [done|].
      apply Z.eqb_neq in Hsize. pose proof (size_nonneg (batch reply)).
      pose proof (size_nonneg (threads m)).
      cbn [emitted inserted threads]. apply Forall_app. split.
      { eapply Forall_impl; [exact Hm|]. intros e. apply agrees_prefix.
        by eexists. }
      apply Forall_cons. split; [|apply Forall_singleton].
      * split; [by eexists|]. cbn. lia.
      * split; [done|]. cbn. rewrite size_app. unfold size at 2.
        rewrite length_fmap. fold (size (batch reply)). lia.
Qed.

Lemma emissions_agree_witness :
  ∃ m', run RedditModel.new
            [ Update; Finished (listing_reply [link "A"; link "B"]);
              Finished (QNetworkReply.mk (QNetworkReply.Error 3) "Host not found"
                          NullDocument) ] = Done m'
        ∧ length (emitted m') = 3%nat
        ∧ Forall (agrees (threads m')) (emitted m').
Proof.
  eexists. split; [vm_compute; reflexivity|]. split; [reflexivity|].
  apply (emissions_agree RedditModel.new
           [ Update; Finished (listing_reply [link "A"; link "B"]);
             Finished (QNetworkReply.mk (QNetworkReply.Error 3) "Host not found"
                         NullDocument) ]).
  - constructor.
  - vm_compute. reflexivity.
Defined.

(** ** Cells *)

(** X11. A display query on a record whose [data] is an object never fails
    for want of a title: it answers with the [title] of the object when that
    is a string, and with the empty string when the object has no [title]
    or one that is not a string. *)
Theorem title_defaults_to_empty
    (m : RedditModel.t) (idx : QModelIndex.t) (record d : QJsonObject) :
  QModelIndex.isValid idx = true →
  threads m !! Z.to_nat (QModelIndex.row idx) = Some record →
  record !! "data" = Some (Object d) →
  data m idx DisplayRole
  = Done (VString match d !! "title" with
                  | Some (String t) => t
                  | _ => ""
                  end).
Proof.
  intros Hidx Hrecord Hdata. rewrite (data_display _ _ _ Hidx Hrecord).
  unfold QJsonObject.value. rewrite Hdata. cbn.
  by destruct (d !! "title") as [[]|].
Qed.

Lemma title_defaults_to_empty_witness :
  data (inserted [Object {["data" := Object {["score" := Null]}]}] RedditModel.new)
       (createIndex 0 0) DisplayRole
  = Done (VString match ({["score" := Null]} : QJsonObject) !! "title" with
                  | Some (String t) => t
                  | _ => ""
                  end).
Proof.
  apply (title_defaults_to_empty
           (inserted [Object {["data" := Object {["score" := Null]}]}] RedditModel.new)
           (createIndex 0 0) {["data" := Object {["score" := Null]}]}
           {["score" := Null]}); reflexivity.
Defined.

(** X12. The model has cells in column 0 only, one per record: the index
    that [index] builds for a row and a column is valid exactly when the
    row is below [rowCount] and not negative and the column is 0, and it is
    then the index of that row. Through such an index [data] never reaches
    [QList::at] out of range, whatever the row, the column and the role. *)
Theorem index_valid_iff (m : RedditModel.t) (row column : Z) :
  (QModelIndex.isValid (index m row column) = true
   ↔ 0 ≤ row < rowCount m ∧ column = 0)
  ∧ (QModelIndex.isValid (index m row column) = true →
     index m row column = createIndex row 0)
  ∧ ∀ role : Z,
      data m (index m row column) role
      ≠ Abort (ASSERT_X "QList::at" "index out of range").
Proof.
  assert (QModelIndex.isValid (index m row column) = true
          → 0 ≤ row < rowCount m ∧ column = 0) as Hvalid.
  { unfold index, hasIndex, columnCount. fold (rowCount m).
    destruct (row <? 0) eqn:H1, (column <? 0) eqn:H2; cbn; try done.
    destruct (row <? rowCount m) eqn:H3; cbn; [|done].
    destruct (rowCount m =? 0) eqn:H4; cbn.
    - destruct (column <? 0) eqn:H5; [lia|done].
    - destruct (column <? 1) eqn:H5; [|done]. lia. }
  split; [|split].
  - split; [exact Hvalid|]. intros [Hrow ->]. rewrite index_in_range by done.
    unfold QModelIndex.isValid, createIndex. cbn.
    destruct (0 <=? row) eqn:H0; [done|lia].
  - intros H. destruct (Hvalid H) as [Hrow ->]. by rewrite index_in_range.
  - intros role.
    destruct (QModelIndex.isValid (index m row column)) eqn:Hidx.
    + destruct (Hvalid eq_refl) as [Hrow ->]. rewrite index_in_range by done.
      unfold data, createIndex, QModelIndex.isValid. cbn.
      destruct (0 <=? row) eqn:H0; [|lia]. cbn.
      destruct (role =? DisplayRole); [|done].
      destruct (threads m !! Z.to_nat row) as [record|] eqn:Hrecord.
      * rewrite <- (Z2Nat.id row) by lia. rewrite (at_lookup _ _ _ Hrecord). cbn.
        by destruct (QJsonValue.isObject (QJsonObject.value record "data")).
      * apply lookup_ge_None in Hrecord. unfold rowCount, size in Hrow. lia.
    + by rewrite data_invalid.
Qed.

(** ** RedditWrapper: the parameters of the flow *)

(** X13. The function that modifies the parameters of the flow touches the
    key [duration] and no other: it sets it to [permanent], over whatever
    was there, when the stage is the request of the authorization and the
    wrapper is permanent, and leaves the map as it is otherwise. Applying it
    twice is applying it once. It reads the flag when it is called: what
    [setPermanent] stored last decides. *)
Theorem duration_only_when_permanent
    (w : RedditWrapper.t) (stage : RedditWrapper.Stage) (parameters : QVariantMap) :
  (∀ key : string,
     key ≠ "duration" →
     RedditWrapper.modifyParameters w stage parameters !! key = parameters !! key)
  ∧ RedditWrapper.modifyParameters w stage parameters !! "duration"
    = (if RedditWrapper.is_RequestingAuthorization stage && RedditWrapper.permanent w
       then Some (VString "permanent")
       else parameters !! "duration")
  ∧ (RedditWrapper.is_RequestingAuthorization stage && RedditWrapper.permanent w = false →
     RedditWrapper.modifyParameters w stage parameters = parameters)
  ∧ RedditWrapper.modifyParameters w stage
      (RedditWrapper.modifyParameters w stage parameters)
    = RedditWrapper.modifyParameters w stage parameters
  ∧ ∀ value : bool,
      RedditWrapper.modifyParameters (RedditWrapper.setPermanent value w)
        RedditWrapper.RequestingAuthorization parameters
      = (if value then <["duration" := VString "permanent"]> parameters
         else parameters).
Proof.
  unfold RedditWrapper.modifyParameters, RedditWrapper.isPermanent.
  repeat split.
  - intros key Hkey.
    destruct (RedditWrapper.is_RequestingAuthorization stage && RedditWrapper.permanent w);
      [by rewrite lookup_insert_ne|done].
  - destruct (RedditWrapper.is_RequestingAuthorization stage && RedditWrapper.permanent w);
      [by rewrite lookup_insert_eq|done].
  - by intros ->.
  - destruct (RedditWrapper.is_RequestingAuthorization stage && RedditWrapper.permanent w);
      [by rewrite insert_insert_eq|done].
Qed.

(** ** RedditWrapper: the reply for the live thread *)

Lemma live_url_shape d url :
  live_url d = Some url →
  QJsonDocument.isObject d = true
  ∧ QJsonValue.isObject (QJsonObject.value (QJsonDocument.object d) "data") = true
  ∧ QJsonObject.value
      (QJsonValue.toObject (QJsonObject.value (QJsonDocument.object d) "data"))
      "websocket_url" = String url
  ∧ url ≠ "".
Proof.
  unfold live_url, QJsonObject.value.
  destruct d as [| |root]; try done. cbn.
  destruct (root !! "data") as [[| | | | |data|]|]; try done. cbn.
  destruct (data !! "websocket_url") as [[| | |s| | |]|]; try done.
  destruct (decide (s = "")); [done|]. by intros [= ->].
Qed.

Lemma live_url_none d :
  live_url d = None →
  QJsonDocument.isObject d = false
  ∨ QJsonValue.isObject (QJsonObject.value (QJsonDocument.object d) "data") = false
  ∨ (QJsonValue.isString
       (QJsonObject.value
          (QJsonValue.toObject (QJsonObject.value (QJsonDocument.object d) "data"))
          "websocket_url")
     && negb (String.length
                (QJsonValue.toString
                   (QJsonObject.value
                      (QJsonValue.toObject
                         (QJsonObject.value (QJsonDocument.object d) "data"))
                      "websocket_url")) =? 0)%nat) = false.
Proof.
  unfold live_url, QJsonObject.value.
  destruct d as [| |root]; cbn; try by left.
  destruct (root !! "data") as [[| | | | |data|]|]; cbn; try by (right; left).
  intros Hnone. right. right.
  destruct (data !! "websocket_url") as [[| | |s| | |]|]; cbn; try done.
  destruct (decide (s = "")) as [->|Hs]; [done|]. done.
Qed.

(** X14. The handler of the live thread announces an address exactly when
    the reply has no transport error and its body is an object whose [data]
    is an object whose [websocket_url] is a string that is not empty; the
    signal carries that string. A transport error only writes the critical
    line with the error string. The [kind] of the body plays no part. *)
Theorem subscribed_iff_websocket_url (reply : QNetworkReply.t) (url : QUrl) :
  (RedditWrapper.subscribeToLiveUpdates_finished reply
   = Done (RedditWrapper.subscribed url)
   ↔ QNetworkReply.error reply = QNetworkReply.NoError
     ∧ live_url (QNetworkReply.body reply) = Some url)
  ∧ (RedditWrapper.subscribeToLiveUpdates_finished reply
     = Done (RedditWrapper.qCritical (QNetworkReply.errorString reply))
     ↔ QNetworkReply.error reply ≠ QNetworkReply.NoError).
Proof.
  unfold RedditWrapper.subscribeToLiveUpdates_finished.
  destruct (QNetworkReply.error reply) eqn:Herr; cbn [QNetworkReply.is_NoError negb].
  - destruct (live_url (QNetworkReply.body reply)) as [u|] eqn:Hurl.
    + destruct (live_url_shape _ _ Hurl) as (H1 & H2 & H3 & H4).
      rewrite H1, H2, H3. cbn.
      assert ((String.length u =? 0)%nat = false) as ->.
      { destruct u; [done|reflexivity]. }
      cbn. split; split.
      * intros [= ->]. done.
      * intros [_ [= ->]]. done.
      * done.
      * done.
    + destruct (live_url_none _ Hurl) as [H|[H|H]].
      * rewrite H. cbn. split; split; try done. by intros [_ ?].
      * destruct (QJsonDocument.isObject _); cbn; [|split; split; try done; by intros [_ ?]].
        rewrite H. cbn. split; split; try done. by intros [_ ?].
      * destruct (QJsonDocument.isObject _); cbn;
          [|split; split; try done; by intros [_ ?]].
        destruct (QJsonValue.isObject _); cbn;
          [|split; split; try done; by intros [_ ?]].
        rewrite H. cbn. split; split; try done. by intros [_ ?].
  - split; split; try done. by intros [? _].
Qed.

(** X15. On a reply without transport error the handler of the live thread
    asserts, in this order, that the body is an object (line 123), that its
    [data] is an object (126) and that the [websocket_url] of [data] is a
    string that is not empty (129); the first requirement that fails aborts
    the run at its assertion. An empty address is a violation. *)
Theorem live_reply_assertions (reply : QNetworkReply.t) :
  QNetworkReply.error reply = QNetworkReply.NoError →
  (root_is_object (QNetworkReply.body reply) = false →
   RedditWrapper.subscribeToLiveUpdates_finished reply = Abort (ASSERT 123))
  ∧ (root_is_object (QNetworkReply.body reply) = true →
     data_is_object (QNetworkReply.body reply) = false →
     RedditWrapper.subscribeToLiveUpdates_finished reply = Abort (ASSERT 126))
  ∧ (root_is_object (QNetworkReply.body reply) = true →
     data_is_object (QNetworkReply.body reply) = true →
     live_url (QNetworkReply.body reply) = None →
     RedditWrapper.subscribeToLiveUpdates_finished reply = Abort (ASSERT 129))
  ∧ (∀ data : QJsonObject,
       QNetworkReply.body reply
       = ObjectDocument {["data" := Object (<["websocket_url" := String ""]> data)]} →
       RedditWrapper.subscribeToLiveUpdates_finished reply = Abort (ASSERT 129)).
Proof.
  intros Herr. unfold RedditWrapper.subscribeToLiveUpdates_finished.
  rewrite Herr. cbn [QNetworkReply.is_NoError negb].
  rewrite assert_114.
  assert (QJsonDocument.isObject (QNetworkReply.body reply)
          = root_is_object (QNetworkReply.body reply)) as -> by reflexivity.
  repeat split.
  - by intros ->.
  - by intros -> ->.
  - intros H1 H2 Hurl. rewrite H1, H2. cbn.
    destruct (live_url_none _ Hurl) as [H|[H|H]].
    + assert (root_is_object (QNetworkReply.body reply) = false) by exact H.
      congruence.
    + rewrite assert_114 in H. congruence.
    + by rewrite H.
  - intros data ->. cbn. unfold QJsonObject.value.
    rewrite lookup_singleton_eq. cbn. by rewrite lookup_insert_eq.
Qed.

Lemma live_reply_assertions_witness :
  RedditWrapper.subscribeToLiveUpdates_finished
    (QNetworkReply.mk QNetworkReply.NoError "" (listing [link "A"]))
  = Abort (ASSERT 129)
  ∧ RedditWrapper.subscribeToLiveUpdates_finished
      (QNetworkReply.mk QNetworkReply.NoError "" (ArrayDocument []))
    = Abort (ASSERT 123).
Proof.
  split.
  - destruct (live_reply_assertions
                (QNetworkReply.mk QNetworkReply.NoError "" (listing [link "A"]))
                eq_refl) as (_ & _ & H & _).
    apply H; reflexivity.
  - destruct (live_reply_assertions
                (QNetworkReply.mk QNetworkReply.NoError "" (ArrayDocument []))
                eq_refl) as (H & _).
    apply H; reflexivity.
Defined.

(** ** Fetching the same listing again *)

(** X16. The model does not recognise a record it already holds: when the
    same successful reply finishes [n] times, its children are appended [n]
    times over, each time in their order, behind the records before. *)
Theorem refetch_duplicates
    (reply : QNetworkReply.t) (cs : QJsonArray) (m : RedditModel.t) (n : nat) :
  successful reply cs →
  ∃ m', run m (replicate n (Finished reply)) = Done m'
        ∧ threads m'
          = threads m ++ concat (replicate n (QJsonValue.toObject <$> cs)).
Proof.
  intros Hok. revert m. induction n as [|n IH]; intros m.
  - exists m. cbn. by rewrite app_nil_r.
  - cbn [replicate run step]. rewrite (update_finished_successful _ _ _ Hok).
    cbn [mbind Run_bind].
    destruct (IH (if size cs =? 0 then m else inserted cs m)) as (m' & Hrun & Hm').
    exists m'. split; [exact Hrun|]. rewrite Hm'. cbn [concat].
    rewrite app_assoc. f_equal.
    destruct (size cs =? 0) eqn:Hsize; [|done].
    apply Z.eqb_eq, size_zero in Hsize. subst cs. cbn. by rewrite app_nil_r.
Qed.

Lemma refetch_duplicates_witness :
  ∃ m', run (RedditModel.new_client "id")
            (replicate 2 (Finished (listing_reply [link "A"; link "B"]))) = Done m'
        ∧ threads m'
          = threads (RedditModel.new_client "id")
            ++ concat (replicate 2 (QJsonValue.toObject <$> [link "A"; link "B"])).
Proof.
  apply (refetch_duplicates (listing_reply [link "A"; link "B"])
           [link "A"; link "B"] (RedditModel.new_client "id") 2).
  split; [reflexivity|]. split; [reflexivity|]. repeat constructor.
Defined.
